(** * DatingApp: the crush backend, its stores and the match resolver

    A shallow embedding of the Express handlers of
    [crush-backend/server.js] (the main backend) and of the two other
    server variants of the repository, over an explicit model of the
    two MongoDB collections they read and write.

    Every handler is a function from the database state (and the request
    fields it reads) to the response it sends and the database state it
    leaves.  The [try { ... } catch (err)] blocks of the source are an
    error monad whose [Throw] the handler turns into the 500 answer. *)

From Stdlib Require Import List String Ascii NArith Bool Lia.
Import ListNotations.

(** ** JavaScript strings *)

(** A JavaScript string is a sequence of UTF-16 code units. *)
Definition jsstring := list N.

(** An ASCII literal as a JavaScript string. *)
Definition lit (s : string) : jsstring :=
  map N_of_ascii (list_ascii_of_string s).

Fixpoint str_eqb (a b : jsstring) : bool :=
  match a, b with
  | [], [] => true
  | x :: a', y :: b' => N.eqb x y && str_eqb a' b'
  | _, _ => false
  end.

Definition jsstring_eq_dec : forall a b : jsstring, {a = b} + {a <> b} :=
  list_eq_dec N.eq_dec.

(** The code units [String.prototype.trim] strips: ECMAScript WhiteSpace
    and LineTerminator. *)
Definition isWhiteSpace (c : N) : bool :=
  ((9 <=? c) && (c <=? 13) || (c =? 32) || (c =? 160) || (c =? 5760)
   || (8192 <=? c) && (c <=? 8202) || (c =? 8232) || (c =? 8233)
   || (c =? 8239) || (c =? 8287) || (c =? 12288) || (c =? 65279))%N.

Fixpoint trimStart (s : jsstring) : jsstring :=
  match s with
  | [] => []
  | c :: r => if isWhiteSpace c then trimStart r else s
  end.

Definition trimEnd (s : jsstring) : jsstring := rev (trimStart (rev s)).

(** [s.trim()] *)
Definition trim (s : jsstring) : jsstring := trimEnd (trimStart s).

(** A field of a JSON request body, as the handlers destructure it:
    [None] is [undefined] (the field is omitted), [Some s] a string.
    Fields of other JSON types are outside the model. *)
Definition field := option jsstring.

(** [!v] for such a field: [undefined] and the empty string are falsy. *)
Definition falsy (v : field) : bool :=
  match v with
  | None => true
  | Some [] => true
  | Some (_ :: _) => false
  end.

(** ** Errors and responses *)

(** The exceptions the handlers can meet. *)
Inductive JsError : Type :=
| TypeError        (* property access or method call on undefined / null *)
| CastError        (* Mongoose: a value is not an ObjectId *)
| ValidationError  (* Mongoose: a required path is missing or empty *)
| DuplicateKey     (* MongoDB E11000 on a unique index *)
| BcryptError.     (* bcrypt.compare without data *)

Definition ObjectId := N.

Record User : Type := mkUser {
  _id : ObjectId;
  username : jsstring;
  password : jsstring   (* the bcrypt hash *)
}.

(** [crushSchema]: [name] and [userId], both required. *)
Record Crush : Type := mkCrush {
  crush_id : ObjectId;
  name : jsstring;
  userId : ObjectId
}.

(** The JSON bodies the handlers send. *)
Inductive Body : Type :=
| Message (message : string)            (* { message } *)
| ErrorMessage (error : JsError)        (* { error: err.message } *)
| ServerError (error : JsError)         (* { message: 'Server error', error: err.message } *)
| Session (token : jsstring) (uid : ObjectId)   (* { token, userId } *)
| CrushDoc (c : Crush)
| CrushList (cs : list Crush)
| Matches (matches : list jsstring).    (* { matches } *)

Record Response : Type := json { status : N; body : Body }.

(** What a request ends in: a response, or, in a handler without
    try/catch, a rejected promise that nobody handles. *)
Inductive Outcome : Type :=
| Sent (r : Response)
| Unhandled (e : JsError).

Inductive result (A : Type) : Type :=
| Ok (a : A)
| Throw (e : JsError).
Arguments Ok {A} a.
Arguments Throw {A} e.

Definition bind {A B : Type} (m : result A) (k : A -> result B) : result B :=
  match m with
  | Ok a => k a
  | Throw e => Throw e
  end.

Notation "x <- m ;; k" := (bind m (fun x => k))
  (at level 61, m at next level, right associativity).

(** ** The database *)

(** The two collections, in insertion order, and the source of fresh
    identifiers. *)
Record DB : Type := mkDB {
  users : list User;
  crushes : list Crush;
  nextId : ObjectId
}.

Definition emptyDB : DB := mkDB [] [] 0%N.

(** The libraries the handlers call into: ObjectId casting, the
    treatment of an [undefined] filter value, bcrypt and jsonwebtoken. *)
Class Externals : Type := {
  (** Mongoose's cast of a string to an ObjectId; [None] is a CastError. *)
  castObjectId : jsstring -> option ObjectId;
  (** The driver's [ignoreUndefined] setting: whether a filter key
      whose value is [undefined] is left out of the query ([true]) or
      sent as null ([false], what the driver does unless told
      otherwise; no variant passes the option to [mongoose.connect]). *)
  ignoreUndefined : bool;
  (** [bcrypt.genSalt(10)], indexed by the state of the store. *)
  genSalt : N -> jsstring;
  (** [bcrypt.hash(data, salt)] *)
  bcrypt_hash : jsstring -> jsstring -> jsstring;
  (** [bcrypt.compare(data, hash)] on a string *)
  bcrypt_compare : jsstring -> jsstring -> bool;
  (** [jwt.sign({ id }, secret, { expiresIn: "1h" })] *)
  jwt_sign : ObjectId -> jsstring
}.

Section Store.
Context {E : Externals}.

(** A filter on one path: [undefined], or a value to be equal to. *)
Definition matchesFilter {A : Type} (eqb : A -> A -> bool)
    (v : option A) (x : A) : bool :=
  match v with
  | Some a => eqb x a
  | None => ignoreUndefined   (* null: no document has a null required path *)
  end.

(** [User.findOne({ username })] *)
Definition User_findOne (db : DB) (uname : field) : option User :=
  find (fun u => matchesFilter str_eqb uname (username u)) (users db).

(** [findOne({ _id })] on a cast identifier. *)
Definition User_findOne_id (db : DB) (i : ObjectId) : option User :=
  find (fun u => N.eqb (_id u) i) (users db).

(** [User.findById(id)] on a string. *)
Definition User_findById (db : DB) (id : jsstring) : result (option User) :=
  match castObjectId id with
  | None => Throw CastError
  | Some i => Ok (User_findOne_id db i)
  end.

(** Modelled from the spec: the User model [./models/User.js], which
    [server.js] imports and which is not among the sources.  The data
    model gives [username] as a non-empty string, unique across all
    Users, and [passwordHash] as a salted hash of the secret; the
    source says the model's pre-save hook does the hashing.  (The
    schema one server variant declares inline is this one: both paths
    required, [username] unique, a pre-save hook hashing with
    [bcrypt.genSalt(10)].)  [user.save()] validates, hashes, inserts. *)
Definition User_save (db : DB) (uname pwd : jsstring) : result DB :=
  match uname, pwd with
  | [], _ | _, [] => Throw ValidationError
  | _, _ =>
      let hash := bcrypt_hash pwd (genSalt (nextId db)) in
      if existsb (fun u => str_eqb (username u) uname) (users db)
      then Throw DuplicateKey
      else Ok (mkDB (users db ++ [mkUser (nextId db) uname hash])
                    (crushes db) (N.succ (nextId db)))
  end.

(** [new Crush({ name, userId })] then [save()] *)
Definition Crush_save (db : DB) (nm uid : field) : result (Crush * DB) :=
  match nm, uid with
  | Some (c :: s), Some u =>
      match castObjectId u with
      | None => Throw ValidationError
      | Some i =>
          let doc := mkCrush (nextId db) (c :: s) i in
          Ok (doc, mkDB (users db) (crushes db ++ [doc]) (N.succ (nextId db)))
      end
  | _, _ => Throw ValidationError
  end.

(** [Crush.find({ userId })] with the route parameter. *)
Definition Crush_find (db : DB) (uid : jsstring) : result (list Crush) :=
  match castObjectId uid with
  | None => Throw CastError
  | Some i => Ok (filter (fun c => N.eqb (userId c) i) (crushes db))
  end.

(** A crush after [.populate("userId")]: the reference is replaced by
    the User document, or null. *)
Record PopulatedCrush : Type := mkPopulated {
  p_id : ObjectId;
  p_name : jsstring;
  p_userId : option User
}.

Definition populate_userId (db : DB) (cs : list Crush) : list PopulatedCrush :=
  map (fun c => mkPopulated (crush_id c) (name c) (User_findOne_id db (userId c))) cs.

(** [Crush.findOne({ userId, name })] *)
Definition Crush_findOne (db : DB) (uid : option ObjectId) (nm : field)
    : option Crush :=
  find (fun c => matchesFilter N.eqb uid (userId c)
                 && matchesFilter str_eqb nm (name c)) (crushes db).

(** [x.username] on the result of a lookup: a TypeError on null. *)
Definition username_of (u : option User) : result jsstring :=
  match u with
  | Some u => Ok (username u)
  | None => Throw TypeError
  end.

(** [bcrypt.compare(password, hash)] *)
Definition compare (pwd : field) (hash : jsstring) : result bool :=
  match pwd with
  | Some p => Ok (bcrypt_compare p hash)
  | None => Throw BcryptError
  end.

End Store.

(** [v.trim()] on a request field: a TypeError when the field is
    [undefined]. *)
Definition trim_method (v : field) : result jsstring :=
  match v with
  | Some s => Ok (trim s)
  | None => Throw TypeError
  end.

(** [s.split(' ')]: the parts between the spaces, empty parts
    included; never an empty array. *)
Fixpoint split_space (s : jsstring) : list jsstring :=
  match s with
  | [] => [[]]
  | c :: r =>
      if (c =? 32)%N then [] :: split_space r
      else match split_space r with
           | [] => [[c]]
           | w :: ws => (c :: w) :: ws
           end
  end.

Fixpoint startsWith (s prefix : jsstring) : bool :=
  match prefix, s with
  | [], _ => true
  | p :: prefix', c :: s' => N.eqb c p && startsWith s' prefix'
  | _ :: _, [] => false
  end.

(** [s.includes(sub)] on strings. *)
Fixpoint includes (s sub : jsstring) : bool :=
  startsWith s sub
  || match s with
     | [] => false
     | _ :: r => includes r sub
     end.

(** [list.includes(x)] on an array of strings. *)
Definition array_includes (l : list jsstring) (x : jsstring) : bool :=
  existsb (fun y => str_eqb y x) l.

(** [jwt.verify(token, secret, callback)]: the [id] of the decoded
    payload (the tokens are those a login signs, over [{ id }]), or
    [None] for the error the callback is given. *)
Class Verifier : Type := {
  jwt_verify : jsstring -> option jsstring
}.

(** What a middleware decides: an answer of its own by
    [res.sendStatus], or [next()] with [req.user]. *)
Inductive Auth : Type :=
| Rejected (code : N)
| Authorized (id : jsstring).

(** The answer of a protected route. *)
Inductive Reply : Type :=
| StatusOnly (code : N)
| Json (r : Response).

(** ** [crush-backend/server.js], the main backend *)

Module ServerJs.
Section Handlers.
Context {E : Externals}.

(** [app.post("/api/register")] *)
Definition register (db : DB) (uname pwd : field) : Response * DB :=
  let attempt :=
    trimmedUsername <- trim_method uname ;;
    trimmedPassword <- trim_method pwd ;;
    match User_findOne db (Some trimmedUsername) with
    | Some existingUser => Ok (json 400 (Message "User already exists"), db)
    | None =>
        db' <- User_save db trimmedUsername trimmedPassword ;;
        Ok (json 200 (Message "User registered successfully"), db')
    end in
  match attempt with
  | Ok r => r
  | Throw err => (json 500 (ErrorMessage err), db)
  end.

(** [app.post("/api/login")] *)
Definition login (db : DB) (uname pwd : field) : Response * DB :=
  let attempt :=
    match User_findOne db uname with
    | None => Ok (json 400 (Message "Invalid username"))
    | Some user =>
        isMatch <- compare pwd (password user) ;;
        if negb isMatch then Ok (json 400 (Message "Invalid password"))
        else Ok (json 200 (Session (jwt_sign (_id user)) (_id user)))
    end in
  match attempt with
  | Ok r => (r, db)
  | Throw err => (json 500 (ErrorMessage err), db)
  end.

(** [app.post("/api/crush")]: no try/catch around [save()]. *)
Definition postCrush (db : DB) (nm uid : field) : Outcome * DB :=
  match Crush_save db nm uid with
  | Ok (newCrush, db') => (Sent (json 200 (CrushDoc newCrush)), db')
  | Throw err => (Unhandled err, db)
  end.

(** [app.get("/api/crush/:userId")] *)
Definition getCrushes (db : DB) (uid : jsstring) : Outcome * DB :=
  match Crush_find db uid with
  | Ok crushes => (Sent (json 200 (CrushList crushes)), db)
  | Throw err => (Unhandled err, db)
  end.

(** [app.post("/api/logout")] *)
Definition logout (db : DB) : Response * DB :=
  (json 200 (Message "Logged out"), db).

(** The body of [for (let crush of myCrushes)], with [matches] as the
    accumulator.  The filter of [Crush.findOne] is built left to right:
    [userId] from the user named [crush.name] ([u?._id], so [undefined]
    when there is none), then [name] from the requesting user, whose
    [.username] throws when [findById] found nobody. *)
Fixpoint matchLoop (db : DB) (uid : jsstring) (myCrushes : list PopulatedCrush)
    (matches : list jsstring) : result (list jsstring) :=
  match myCrushes with
  | [] => Ok matches
  | crush :: rest =>
      let target := option_map _id (User_findOne db (Some (p_name crush))) in
      me <- User_findById db uid ;;
      myName <- username_of me ;;
      match Crush_findOne db target (Some myName) with
      | Some reverse => matchLoop db uid rest (matches ++ [p_name crush])
      | None => matchLoop db uid rest matches
      end
  end.

(** [app.get("/api/matches/:userId")] *)
Definition getMatches (db : DB) (uid : jsstring) : Response * DB :=
  let attempt :=
    myCrushes <- Crush_find db uid ;;
    matchLoop db uid (populate_userId db myCrushes) [] in
  match attempt with
  | Ok matches => (json 200 (Matches matches), db)
  | Throw err => (json 500 (ErrorMessage err), db)
  end.

End Handlers.
End ServerJs.

(** ** The self-contained variant with the inline User schema *)

Module Standalone.
Section Handlers.
Context {E : Externals}.

(** [User.findOne({ username })] under the inline [userSchema]:
    [username] is declared [trim: true], and Mongoose runs the setter
    on the filter value too. *)
Definition findUser (db : DB) (uname : field) : option User :=
  User_findOne db (option_map trim uname).

(** [new User({ username, password })] then [save()] under the inline
    [userSchema]: [username] is trimmed when set, both paths are
    required, the [pre('save')] hook replaces the password by
    [bcrypt.hash(password, await bcrypt.genSalt(10))], and [username]
    has a unique index. *)
Definition saveUser (db : DB) (uname pwd : jsstring) : result DB :=
  let trimmed := trim uname in
  match trimmed, pwd with
  | [], _ | _, [] => Throw ValidationError
  | _, _ =>
      let salt := genSalt (nextId db) in
      let hashed := bcrypt_hash pwd salt in
      if existsb (fun u => str_eqb (username u) trimmed) (users db)
      then Throw DuplicateKey
      else Ok (mkDB (users db ++ [mkUser (nextId db) trimmed hashed])
                    (crushes db) (N.succ (nextId db)))
  end.

(** [app.post('/api/register')] *)
Definition register (db : DB) (uname pwd : field) : Response * DB :=
  let attempt :=
    if falsy uname || falsy pwd
    then Ok (json 400 (Message "Username and password required"), db)
    else
      match findUser db uname with
      | Some existingUser =>
          Ok (json 400 (Message "Username already exists"), db)
      | None =>
          match uname, pwd with
          | Some u, Some p =>
              db' <- saveUser db u p ;;
              Ok (json 201 (Message "User created successfully"), db')
          | _, _ => Throw ValidationError
          end
      end in
  match attempt with
  | Ok r => r
  | Throw err => (json 500 (ServerError err), db)
  end.

(** [app.post('/api/login')] *)
Definition login (db : DB) (uname pwd : field) : Response * DB :=
  let attempt :=
    match findUser db uname with
    | None => Ok (json 401 (Message "Invalid credentials"))
    | Some user =>
        isMatch <- compare pwd (password user) ;;
        if negb isMatch then Ok (json 401 (Message "Invalid credentials"))
        else Ok (json 200 (Session (jwt_sign (_id user)) (_id user)))
    end in
  match attempt with
  | Ok r => (r, db)
  | Throw err => (json 500 (ServerError err), db)
  end.

End Handlers.

Section Protected.
Context {E : Externals} {V : Verifier}.

Definition CORS_ORIGINS : list jsstring :=
  [ lit "http://localhost:3000";
    lit "https://your-frontend.onrender.com";
    lit "https://your-backend.onrender.com" ].

(** The [origin] function of the CORS options: [true] is
    [callback(null, true)], [false] the 'Not allowed by CORS' error. *)
Definition corsOrigin (origin : field) : bool :=
  if falsy origin then true
  else
    match origin with
    | Some o =>
        array_includes CORS_ORIGINS o
        || includes o (lit "localhost")
        || includes o (lit "onrender.com")
    | None => true
    end.

(** [authenticateToken] *)
Definition authenticateToken (authHeader : field) : Auth :=
  let token :=
    match authHeader with
    | None => None
    | Some [] => Some []
    | Some h => nth_error (split_space h) 1
    end in
  if falsy token then Rejected 401
  else
    match token with
    | Some t =>
        match jwt_verify t with
        | None => Rejected 403
        | Some user => Authorized user
        end
    | None => Rejected 401
    end.

(** [app.post('/api/crush', authenticateToken, ...)]; the inline
    [crushSchema] trims [name]. *)
Definition postCrush (db : DB) (authHeader nm : field) : Reply * DB :=
  match authenticateToken authHeader with
  | Rejected code => (StatusOnly code, db)
  | Authorized uid =>
      let attempt :=
        if falsy nm then Ok (json 400 (Message "Name is required"), db)
        else
          saved <- Crush_save db (option_map trim nm) (Some uid) ;;
          Ok (json 201 (CrushDoc (fst saved)), snd saved) in
      match attempt with
      | Ok r => (Json (fst r), snd r)
      | Throw err => (Json (json 500 (ServerError err)), db)
      end
  end.

(** [app.get('/api/crush/:userId', authenticateToken, ...)] *)
Definition getCrushes (db : DB) (authHeader : field) (uid : jsstring)
    : Reply * DB :=
  match authenticateToken authHeader with
  | Rejected code => (StatusOnly code, db)
  | Authorized _ =>
      match Crush_find db uid with
      | Ok crushes => (Json (json 200 (CrushList crushes)), db)
      | Throw err => (Json (json 500 (ServerError err)), db)
      end
  end.

End Protected.
End Standalone.

(** ** The variant that validates its input *)

Module Validating.
Section Handlers.
Context {E : Externals}.

(** [app.post("/api/register")] *)
Definition register (db : DB) (uname pwd : field) : Response * DB :=
  let attempt :=
    trimmedUsername <- trim_method uname ;;
    trimmedPassword <- trim_method pwd ;;
    if falsy (Some trimmedUsername) || falsy (Some trimmedPassword)
    then Ok (json 400 (Message "Username and password are required"), db)
    else
      match User_findOne db (Some trimmedUsername) with
      | Some existingUser => Ok (json 400 (Message "User already exists"), db)
      | None =>
          db' <- User_save db trimmedUsername trimmedPassword ;;
          Ok (json 200 (Message "User registered successfully"), db')
      end in
  match attempt with
  | Ok r => r
  | Throw err => (json 500 (ErrorMessage err), db)
  end.

(** [app.post("/api/login")] *)
Definition login (db : DB) (uname pwd : field) : Response * DB :=
  let attempt :=
    match User_findOne db uname with
    | None => Ok (json 400 (Message "Invalid username or password"))
    | Some user =>
        isMatch <- compare pwd (password user) ;;
        if negb isMatch then Ok (json 400 (Message "Invalid username or password"))
        else Ok (json 200 (Session (jwt_sign (_id user)) (_id user)))
    end in
  match attempt with
  | Ok r => (r, db)
  | Throw err => (json 500 (ErrorMessage err), db)
  end.

(** The loop of [app.get("/api/matches/:userId")]: the reverse lookup
    is made only [if (user)]. *)
Fixpoint matchLoop (db : DB) (uid : jsstring) (myCrushes : list PopulatedCrush)
    (matches : list jsstring) : result (list jsstring) :=
  match myCrushes with
  | [] => Ok matches
  | crush :: rest =>
      match User_findOne db (Some (p_name crush)) with
      | Some user =>
          me <- User_findById db uid ;;
          myName <- username_of me ;;
          match Crush_findOne db (Some (_id user)) (Some myName) with
          | Some reverse => matchLoop db uid rest (matches ++ [p_name crush])
          | None => matchLoop db uid rest matches
          end
      | None => matchLoop db uid rest matches
      end
  end.

(** [app.get("/api/matches/:userId")] *)
Definition getMatches (db : DB) (uid : jsstring) : Response * DB :=
  let attempt :=
    myCrushes <- Crush_find db uid ;;
    matchLoop db uid (populate_userId db myCrushes) [] in
  match attempt with
  | Ok matches => (json 200 (Matches matches), db)
  | Throw err => (json 500 (ErrorMessage err), db)
  end.

End Handlers.

Section Crushes.
Context {E : Externals}.

Definition allowedOrigins : list jsstring :=
  [ lit "http://localhost:3000";
    lit "https://your-render-frontend-url.onrender.com" ].

(** The [origin] function of the CORS options. *)
Definition corsOrigin (origin : field) : bool :=
  falsy origin
  || match origin with
     | Some o => array_includes allowedOrigins o
     | None => true
     end.

(** [app.post("/api/crush")] *)
Definition postCrush (db : DB) (nm uid : field) : Response * DB :=
  let attempt :=
    if falsy nm || falsy uid
    then Ok (json 400 (Message "Name and userId are required"), db)
    else
      saved <- Crush_save db nm uid ;;
      Ok (json 201 (CrushDoc (fst saved)), snd saved) in
  match attempt with
  | Ok r => r
  | Throw err => (json 500 (ErrorMessage err), db)
  end.

(** [app.get("/api/crush/:userId")] *)
Definition getCrushes (db : DB) (uid : jsstring) : Response * DB :=
  match Crush_find db uid with
  | Ok crushes => (json 200 (CrushList crushes), db)
  | Throw err => (json 500 (ErrorMessage err), db)
  end.

End Crushes.
End Validating.

(** ** Requests against the main backend *)

Inductive Request : Type :=
| PostRegister (uname pwd : field)
| PostLogin (uname pwd : field)
| PostCrush (nm uid : field)
| GetCrush (uid : jsstring)
| PostLogout
| GetMatches (uid : jsstring).

Section Serving.
Context {E : Externals}.

Definition sent (p : Response * DB) : Outcome * DB := (Sent (fst p), snd p).

Definition handle (db : DB) (req : Request) : Outcome * DB :=
  match req with
  | PostRegister u p => sent (ServerJs.register db u p)
  | PostLogin u p => sent (ServerJs.login db u p)
  | PostCrush n u => ServerJs.postCrush db n u
  | GetCrush u => ServerJs.getCrushes db u
  | PostLogout => sent (ServerJs.logout db)
  | GetMatches u => sent (ServerJs.getMatches db u)
  end.

(** The database after a sequence of requests. *)
Definition serve (db : DB) (reqs : list Request) : DB :=
  fold_left (fun d r => snd (handle d r)) reqs db.

(** [resolveById]: the User a route parameter designates, if any. *)
Definition resolveById (db : DB) (uid : jsstring) : option User :=
  match castObjectId uid with
  | Some i => User_findOne_id db i
  | None => None
  end.

(** [listByOwner]: the documents [GET /api/crush/:userId] answers with. *)
Definition listByOwner (db : DB) (uid : jsstring) : list Crush :=
  match fst (ServerJs.getCrushes db uid) with
  | Sent (json _ (CrushList cs)) => cs
  | _ => []
  end.

(** Whether the loop of the main backend keeps [crush], for a
    requesting user called [myName]: the [if (reverse)] test. *)
Definition reciprocated (db : DB) (myName : jsstring) (crush : PopulatedCrush)
    : bool :=
  match Crush_findOne db
          (option_map _id (User_findOne db (Some (p_name crush))))
          (Some myName) with
  | Some _ => true
  | None => false
  end.

(** The stores are consistent: identifiers are unique and below the
    next fresh one, usernames are unique and not empty. *)
Definition consistent (db : DB) : Prop :=
  NoDup (map _id (users db))
  /\ NoDup (map username (users db))
  /\ (forall u, In u (users db) -> (_id u < nextId db)%N)
  /\ (forall u, In u (users db) -> username u <> []).

End Serving.

(** [l1] is [l2] with some entries left out, order kept. *)
Inductive Subseq {A : Type} : list A -> list A -> Prop :=
| Subseq_nil : Subseq [] []
| Subseq_skip : forall l1 l2 x, Subseq l1 l2 -> Subseq l1 (x :: l2)
| Subseq_keep : forall l1 l2 x, Subseq l1 l2 -> Subseq (x :: l1) (x :: l2).

(** [db'] holds what [db] holds, in the same order, and possibly more
    after it. *)
Definition extends (db db' : DB) : Prop :=
  (exists us, users db' = users db ++ us)
  /\ (exists cs, crushes db' = crushes db ++ cs).

(** The [if (user)] and [if (reverse)] tests of the guarded loop, for
    a requesting user called [myName]. *)
Definition guardedReciprocated {E : Externals} (db : DB) (myName : jsstring)
    (crush : PopulatedCrush) : bool :=
  match User_findOne db (Some (p_name crush)) with
  | Some user =>
      match Crush_findOne db (Some (_id user)) (Some myName) with
      | Some _ => true
      | None => false
      end
  | None => false
  end.

(** The owner [i] has recorded an interest named [n]. *)
Definition hasNamed (db : DB) (i : ObjectId) (n : jsstring) : Prop :=
  exists c, In c (crushes db) /\ userId c = i /\ name c = n.

(** A registered user called [n] has recorded an interest named
    [myName]. *)
Definition namedBy (db : DB) (myName n : jsstring) : Prop :=
  exists B, In B (users db) /\ username B = n /\ hasNamed db (_id B) myName.

(** The matches a response carries, if it carries any. *)
Definition matchesOf (r : Response) : option (list jsstring) :=
  match body r with
  | Matches l => Some l
  | _ => None
  end.

(** ** A concrete instance of the libraries, for running the handlers *)

Definition hexDigit (c : N) : option N :=
  if ((48 <=? c) && (c <=? 57))%N then Some (c - 48)%N
  else if ((97 <=? c) && (c <=? 102))%N then Some (c - 87)%N
  else if ((65 <=? c) && (c <=? 70))%N then Some (c - 55)%N
  else None.

Fixpoint parseHex (s : jsstring) (acc : N) : option N :=
  match s with
  | [] => Some acc
  | c :: r =>
      match hexDigit c with
      | Some d => parseHex r (16 * acc + d)%N
      | None => None
      end
  end.

(** A 24-digit hexadecimal string is an ObjectId. *)
Definition hex24 (s : jsstring) : option ObjectId :=
  if Nat.eqb (List.length s) 24 then parseHex s 0%N else None.

Definition testSalt : jsstring := lit "$2b$10$abcdefghijklmnopqrstuv".

Definition testLibs (dropUndefined : bool) : Externals := {|
  castObjectId := hex24;
  ignoreUndefined := dropUndefined;
  genSalt := fun _ => testSalt;
  bcrypt_hash := fun data salt => salt ++ data;
  bcrypt_compare := fun data hash => str_eqb hash (testSalt ++ data);
  jwt_sign := fun i => lit "jwt"
|}.

Definition oid0 : jsstring := lit "000000000000000000000000".
Definition oid1 : jsstring := lit "000000000000000000000001".
Definition oid7 : jsstring := lit "000000000000000000000007".

(** alice and carol register; alice names "ghost", carol names "alice". *)
Definition ghostRequests : list Request :=
  [ PostRegister (Some (lit "alice")) (Some (lit "pw1"));
    PostRegister (Some (lit "carol")) (Some (lit "pw2"));
    PostCrush (Some (lit "ghost")) (Some oid0);
    PostCrush (Some (lit "alice")) (Some oid1) ].

(** alice and bob register; alice names "bob" twice, bob names "alice". *)
Definition mutualRequests : list Request :=
  [ PostRegister (Some (lit " alice ")) (Some (lit "pw1"));
    PostRegister (Some (lit "bob")) (Some (lit "pw2"));
    PostCrush (Some (lit "bob")) (Some oid0);
    PostCrush (Some (lit "bob")) (Some oid0);
    PostCrush (Some (lit "alice")) (Some oid1) ].


(** A crush recorded under an identifier that is nobody's. *)
Definition strandedRequests : list Request :=
  [ PostCrush (Some (lit "bob")) (Some oid7) ].

(** The libraries as the variants configure them, the same with
    [ignoreUndefined] turned on, and the states the request sequences
    above lead to. *)
Definition libs : Externals := testLibs false.
Definition droppingLibs : Externals := testLibs true.
Definition ghostDB : DB := @serve libs emptyDB ghostRequests.
Definition mutualDB : DB := @serve libs emptyDB mutualRequests.
Definition strandedDB : DB := @serve libs emptyDB strandedRequests.

(** A verifier that accepts the token of [testLibs] for the first
    user. *)
Definition testVerifier : Verifier := {|
  jwt_verify := fun t => if str_eqb t (lit "jwt") then Some oid0 else None
|}.

Definition alice : User := mkUser 0%N (lit "alice") (testSalt ++ lit "pw1").
Definition bob : User := mkUser 1%N (lit "bob") (testSalt ++ lit "pw2").

(** * Properties *)

(** ** Strings and lookups *)

Lemma str_eqb_eq : forall a b, str_eqb a b = true <-> a = b.
Proof.
  induction a as [|x a IH]; destruct b as [|y b]; simpl; split;
    try discriminate; try reflexivity.
  - intros H. apply andb_true_iff in H. destruct H as [Hx Hr].
    apply N.eqb_eq in Hx. apply IH in Hr. congruence.
  - intros H. injection H as -> ->.
    rewrite N.eqb_refl. simpl. apply IH. reflexivity.
Qed.

Lemma str_eqb_refl : forall a, str_eqb a a = true.
Proof. intros a. apply str_eqb_eq. reflexivity. Qed.

Lemma str_eqb_neq : forall a b, str_eqb a b = false <-> a <> b.
Proof.
  intros a b. split.
  - intros H Heq. apply str_eqb_eq in Heq. congruence.
  - intros H. destruct (str_eqb a b) eqn:Hab; [|reflexivity].
    apply str_eqb_eq in Hab. contradiction.
Qed.

(** In a list without two entries of the same key, [find] on a key
    returns the entry that carries it. *)
Lemma find_by_key (A K : Type) (key : A -> K) (p : A -> bool) (x : A) :
  forall l,
    NoDup (map key l) -> In x l -> p x = true ->
    (forall y, In y l -> p y = true -> key y = key x) ->
    find p l = Some x.
Proof.
  induction l as [|a l IH]; intros Hnd Hin Hpx Hkey; [contradiction|].
  simpl in *. inversion Hnd as [|k ks Hnotin Hnd']; subst.
  destruct (p a) eqn:Hpa.
  - destruct Hin as [->|Hin]; [reflexivity|].
    exfalso. apply Hnotin. rewrite (Hkey a (or_introl eq_refl) Hpa).
    apply in_map. exact Hin.
  - destruct Hin as [->|Hin]; [congruence|].
    apply IH; auto.
Qed.

Lemma find_none_iff (A : Type) (p : A -> bool) (l : list A) :
  find p l = None <-> forall x, In x l -> p x = false.
Proof.
  split.
  - apply find_none.
  - induction l as [|a l IH]; intros H; [reflexivity|].
    simpl. rewrite (H a (or_introl eq_refl)). apply IH.
    intros x Hx. apply H. right. exact Hx.
Qed.

Section Lookups.
Context {E : Externals}.

Lemma User_findOne_registered (db : DB) (u : User) :
  NoDup (map username (users db)) -> In u (users db) ->
  User_findOne db (Some (username u)) = Some u.
Proof.
  intros Hnd Hin. unfold User_findOne.
  apply find_by_key with (key := username); simpl; auto.
  - apply str_eqb_refl.
  - intros y _ Hy. apply str_eqb_eq in Hy. exact Hy.
Qed.

Lemma User_findOne_some (db : DB) (n : jsstring) (u : User) :
  User_findOne db (Some n) = Some u -> In u (users db) /\ username u = n.
Proof.
  unfold User_findOne. intros H. apply find_some in H. simpl in H.
  destruct H as [Hin Heq]. apply str_eqb_eq in Heq. auto.
Qed.

Lemma User_findOne_unregistered (db : DB) (n : jsstring) :
  (forall u, In u (users db) -> username u <> n) ->
  User_findOne db (Some n) = None.
Proof.
  intros H. unfold User_findOne. apply find_none_iff.
  intros u Hu. simpl. apply str_eqb_neq. auto.
Qed.

Lemma User_findOne_id_registered (db : DB) (u : User) :
  NoDup (map _id (users db)) -> In u (users db) ->
  User_findOne_id db (_id u) = Some u.
Proof.
  intros Hnd Hin. unfold User_findOne_id.
  apply find_by_key with (key := _id); auto.
  - apply N.eqb_refl.
  - intros y _ Hy. apply N.eqb_eq in Hy. exact Hy.
Qed.

Lemma Crush_findOne_present (db : DB) (r : Crush) :
  In r (crushes db) ->
  exists r', Crush_findOne db (Some (userId r)) (Some (name r)) = Some r'.
Proof.
  intros Hin. unfold Crush_findOne.
  destruct (find _ (crushes db)) as [r'|] eqn:Hf; [eauto|].
  exfalso. apply find_none with (x := r) in Hf; [|exact Hin].
  simpl in Hf. rewrite N.eqb_refl, str_eqb_refl in Hf. discriminate.
Qed.

(** Sent as null, an [undefined] user id selects no crush. *)
Lemma Crush_findOne_null (db : DB) (nm : field) :
  ignoreUndefined = false -> Crush_findOne db None nm = None.
Proof.
  intros Hnull. unfold Crush_findOne. apply find_none_iff.
  intros c _. simpl. rewrite Hnull. reflexivity.
Qed.

Lemma populate_names (db : DB) (cs : list Crush) :
  map p_name (populate_userId db cs) = map name cs.
Proof.
  unfold populate_userId. rewrite map_map. reflexivity.
Qed.

End Lookups.

Lemma Subseq_refl (A : Type) (l : list A) : Subseq l l.
Proof. induction l; constructor; assumption. Qed.

Lemma Subseq_nil_l (A : Type) (l : list A) : Subseq [] l.
Proof. induction l; constructor; assumption. Qed.

Lemma Subseq_In (A : Type) (l1 l2 : list A) :
  Subseq l1 l2 -> forall x, In x l1 -> In x l2.
Proof.
  induction 1; intros y Hy; simpl in *; auto.
  destruct Hy as [->|Hy]; auto.
Qed.

(** ** The match loop *)

Section MatchLoop.
Context {E : Externals}.

(** Whatever the stores hold, the loop only appends names of the
    crushes it walks, in their order. *)
Lemma matchLoop_subseq (db : DB) (uid : jsstring) :
  forall cs acc l,
    ServerJs.matchLoop db uid cs acc = Ok l ->
    exists l', l = acc ++ l' /\ Subseq l' (map p_name cs).
Proof.
  induction cs as [|c cs IH]; intros acc l Hl; simpl in Hl.
  - injection Hl as <-. exists []. rewrite app_nil_r. split; constructor.
  - destruct (User_findById db uid) as [me|e]; simpl in Hl; [|discriminate].
    destruct (username_of me) as [myName|e]; simpl in Hl; [|discriminate].
    destruct (Crush_findOne db _ (Some myName)).
    + apply IH in Hl. destruct Hl as [l' [-> Hsub]].
      exists (p_name c :: l'). rewrite <- app_assoc. simpl.
      split; [reflexivity|]. apply Subseq_keep. exact Hsub.
    + apply IH in Hl. destruct Hl as [l' [-> Hsub]].
      exists l'. split; [reflexivity|]. apply Subseq_skip. exact Hsub.
Qed.

(** For a registered requesting user the loop never throws: it is the
    filter of the crushes by [reciprocated]. *)
Lemma matchLoop_registered (db : DB) (uid : jsstring) (me : User) :
  User_findById db uid = Ok (Some me) ->
  forall cs acc,
    ServerJs.matchLoop db uid cs acc
    = Ok (acc ++ map p_name (filter (reciprocated db (username me)) cs)).
Proof.
  intros Hme. induction cs as [|c cs IH]; intros acc; simpl.
  - rewrite app_nil_r. reflexivity.
  - rewrite Hme. simpl. unfold reciprocated at 1.
    destruct (Crush_findOne db _ (Some (username me))); rewrite IH.
    + simpl. rewrite <- app_assoc. reflexivity.
    + reflexivity.
Qed.

(** With nobody behind the route parameter, the first crush throws. *)
Lemma matchLoop_unregistered (db : DB) (uid : jsstring) :
  User_findById db uid = Ok None ->
  forall c cs acc, ServerJs.matchLoop db uid (c :: cs) acc = Throw TypeError.
Proof. intros Hme c cs acc. simpl. rewrite Hme. reflexivity. Qed.

Lemma resolveById_registered (db : DB) (uid : jsstring) (me : User) :
  consistent db -> In me (users db) -> castObjectId uid = Some (_id me) ->
  resolveById db uid = Some me.
Proof.
  intros [Hids _] Hin Hcast. unfold resolveById. rewrite Hcast.
  apply User_findOne_id_registered; assumption.
Qed.

Lemma getMatches_resolved (db : DB) (uid : jsstring) (me : User) :
  resolveById db uid = Some me ->
  ServerJs.getMatches db uid
  = (json 200 (Matches (map p_name
       (filter (reciprocated db (username me))
          (populate_userId db (listByOwner db uid))))), db).
Proof.
  unfold resolveById. intros Hres.
  destruct (castObjectId uid) as [i|] eqn:Hcast; [|discriminate].
  assert (Hme : User_findById db uid = Ok (Some me)).
  { unfold User_findById. rewrite Hcast, Hres. reflexivity. }
  unfold ServerJs.getMatches, listByOwner, ServerJs.getCrushes, Crush_find.
  rewrite Hcast. simpl.
  rewrite (matchLoop_registered db uid me Hme). reflexivity.
Qed.

Lemma getMatches_registered (db : DB) (uid : jsstring) (me : User) :
  consistent db -> In me (users db) -> castObjectId uid = Some (_id me) ->
  ServerJs.getMatches db uid
  = (json 200 (Matches (map p_name
       (filter (reciprocated db (username me))
          (populate_userId db (listByOwner db uid))))), db).
Proof.
  intros Hc Hin Hcast. apply getMatches_resolved.
  apply resolveById_registered; assumption.
Qed.

(** The names the guarded loop appends are usernames of registered
    users. *)
Lemma guarded_matchLoop_registered_names (db : DB) (uid : jsstring) :
  forall cs acc l,
    Validating.matchLoop db uid cs acc = Ok l ->
    forall n, In n l ->
      In n acc \/ exists u, In u (users db) /\ username u = n.
Proof.
  induction cs as [|c cs IH]; intros acc l Hl n Hn; simpl in Hl.
  - injection Hl as <-. left. exact Hn.
  - destruct (User_findOne db (Some (p_name c))) as [user|] eqn:Huser.
    + destruct (User_findById db uid) as [me|e]; simpl in Hl; [|discriminate].
      destruct (username_of me) as [myName|e]; simpl in Hl; [|discriminate].
      destruct (Crush_findOne db _ (Some myName));
        destruct (IH _ _ Hl n Hn) as [Hacc|Hreg]; auto.
      apply in_app_or in Hacc. destruct Hacc as [Hacc|[<-|[]]]; auto.
      right. exists user. apply User_findOne_some. exact Huser.
    + apply (IH _ _ Hl n Hn).
Qed.

(** So are those of the unguarded loop, when an [undefined] filter
    value is sent as null. *)
Lemma null_matchLoop_registered_names (db : DB) (uid : jsstring) :
  ignoreUndefined = false ->
  forall cs acc l,
    ServerJs.matchLoop db uid cs acc = Ok l ->
    forall n, In n l ->
      In n acc \/ exists u, In u (users db) /\ username u = n.
Proof.
  intros Hnull.
  induction cs as [|c cs IH]; intros acc l Hl n Hn; simpl in Hl.
  - injection Hl as <-. left. exact Hn.
  - destruct (User_findById db uid) as [me|e]; simpl in Hl; [|discriminate].
    destruct (username_of me) as [myName|e]; simpl in Hl; [|discriminate].
    destruct (User_findOne db (Some (p_name c))) as [user|] eqn:Huser;
      simpl in Hl.
    + destruct (Crush_findOne db _ (Some myName));
        destruct (IH _ _ Hl n Hn) as [Hacc|Hreg]; auto.
      apply in_app_or in Hacc. destruct Hacc as [Hacc|[<-|[]]]; auto.
      right. exists user. apply User_findOne_some. exact Huser.
    + rewrite (Crush_findOne_null db (Some myName) Hnull) in Hl.
      apply (IH _ _ Hl n Hn).
Qed.

End MatchLoop.

(** ** The stores stay consistent *)

Section Consistency.
Context {E : Externals}.

Lemma existsb_username_false (us : list User) (n : jsstring) :
  existsb (fun u => str_eqb (username u) n) us = false ->
  ~ In n (map username us).
Proof.
  intros Hex Hin. apply in_map_iff in Hin. destruct Hin as [u [Hu Hin]].
  assert (Ht : existsb (fun u => str_eqb (username u) n) us = true).
  { apply existsb_exists. exists u. split; [exact Hin|].
    apply str_eqb_eq. exact Hu. }
  congruence.
Qed.

Lemma NoDup_snoc (A : Type) (l : list A) (x : A) :
  NoDup l -> ~ In x l -> NoDup (l ++ [x]).
Proof.
  intros Hnd Hx. apply NoDup_app.
  - exact Hnd.
  - constructor; [intros []|constructor].
  - intros y Hy [<-|[]]. contradiction.
Qed.

Lemma User_save_consistent (db db' : DB) (uname pwd : jsstring) :
  consistent db -> User_save db uname pwd = Ok db' -> consistent db'.
Proof.
  intros (Hids & Hnames & Hfresh & Hnonempty) Hsave.
  unfold User_save in Hsave.
  destruct uname as [|c uname]; [discriminate|].
  destruct pwd as [|d pwd]; [discriminate|].
  destruct (existsb _ (users db)) eqn:Hex; [discriminate|].
  injection Hsave as <-. unfold consistent. simpl.
  rewrite !map_app. simpl. repeat split.
  - apply NoDup_snoc; [exact Hids|].
    intros Hin. apply in_map_iff in Hin. destruct Hin as [u [Hu Hin]].
    apply Hfresh in Hin. lia.
  - apply NoDup_snoc; [exact Hnames|].
    apply existsb_username_false. exact Hex.
  - intros u Hu. apply in_app_or in Hu. destruct Hu as [Hu|[<-|[]]].
    + apply Hfresh in Hu. lia.
    + simpl. lia.
  - intros u Hu. apply in_app_or in Hu. destruct Hu as [Hu|[<-|[]]].
    + apply Hnonempty. exact Hu.
    + simpl. discriminate.
Qed.

Lemma Crush_save_consistent (db db' : DB) (nm uid : field) (c : Crush) :
  consistent db -> Crush_save db nm uid = Ok (c, db') -> consistent db'.
Proof.
  intros (Hids & Hnames & Hfresh & Hnonempty) Hsave.
  unfold Crush_save in Hsave.
  destruct nm as [[|ch nm]|]; try discriminate.
  destruct uid as [u|]; try discriminate.
  destruct (castObjectId u); [|discriminate].
  injection Hsave as <- <-. unfold consistent. simpl. repeat split; auto.
  intros u' Hu'. apply Hfresh in Hu'. lia.
Qed.

(** Reads leave the stores as they are. *)
Lemma login_reads (db : DB) (uname pwd : field) :
  snd (ServerJs.login db uname pwd) = db.
Proof.
  unfold ServerJs.login.
  destruct (User_findOne db uname) as [user|]; [|reflexivity].
  destruct (compare pwd (password user)) as [[|]|]; reflexivity.
Qed.

Lemma getCrushes_reads (db : DB) (uid : jsstring) :
  snd (ServerJs.getCrushes db uid) = db.
Proof.
  unfold ServerJs.getCrushes. destruct (Crush_find db uid); reflexivity.
Qed.

Lemma getMatches_reads (db : DB) (uid : jsstring) :
  snd (ServerJs.getMatches db uid) = db.
Proof.
  unfold ServerJs.getMatches.
  destruct (_ <- Crush_find db uid ;; _); reflexivity.
Qed.

Lemma register_consistent (db : DB) (uname pwd : field) :
  consistent db -> consistent (snd (ServerJs.register db uname pwd)).
Proof.
  intros Hc. unfold ServerJs.register.
  destruct uname as [u|]; [|exact Hc].
  destruct pwd as [p|]; [|exact Hc]. simpl.
  destruct (User_findOne db (Some (trim u))); [exact Hc|].
  destruct (User_save db (trim u) (trim p)) as [db'|e] eqn:Hsave;
    simpl; [|exact Hc].
  eapply User_save_consistent; eassumption.
Qed.

Lemma handle_consistent (db : DB) (req : Request) :
  consistent db -> consistent (snd (handle db req)).
Proof.
  intros Hc. destruct req as [u p|u p|n u|u| |u]; simpl.
  - apply register_consistent. exact Hc.
  - rewrite login_reads. exact Hc.
  - unfold ServerJs.postCrush.
    destruct (Crush_save db n u) as [[c db']|e] eqn:Hsave; simpl;
      [|exact Hc].
    eapply Crush_save_consistent; eassumption.
  - rewrite getCrushes_reads. exact Hc.
  - exact Hc.
  - rewrite getMatches_reads. exact Hc.
Qed.

Lemma emptyDB_consistent : consistent emptyDB.
Proof.
  unfold consistent, emptyDB. simpl.
  repeat split; try constructor; intros u [].
Qed.

Lemma serve_consistent (reqs : list Request) :
  forall db, consistent db -> consistent (serve db reqs).
Proof.
  induction reqs as [|r reqs IH]; intros db Hc; simpl; [exact Hc|].
  apply IH. apply handle_consistent. exact Hc.
Qed.

End Consistency.

(** ** The match resolver of the main backend *)

Section Resolver.
Context {E : Externals}.

Lemma Subseq_filter (A : Type) (f : A -> bool) (l : list A) :
  Subseq (filter f l) l.
Proof.
  induction l as [|x l IH]; simpl; [constructor|].
  destruct (f x); [apply Subseq_keep|apply Subseq_skip]; exact IH.
Qed.

(** What [GET /api/crush/:userId] lists for a well-formed identifier
    is the documents of the collection owned by it, no other, in the
    order of the collection. *)
Lemma listByOwner_owned (db : DB) (uid : jsstring) (i : ObjectId) :
  castObjectId uid = Some i ->
  Subseq (listByOwner db uid) (crushes db)
  /\ forall c, In c (listByOwner db uid)
               <-> In c (crushes db) /\ userId c = i.
Proof.
  intros Hcast. unfold listByOwner, ServerJs.getCrushes, Crush_find.
  rewrite Hcast. simpl. split; [apply Subseq_filter|].
  intros c. rewrite filter_In, N.eqb_eq. reflexivity.
Qed.

(** C10: whatever the stores hold and whatever the route parameter,
    [GET /api/matches/:userId] either fails with the 500 answer or
    the parameter is a well-formed identifier and the sequence
    returned is a subsequence of the names of the interests owned by
    that identifier: what [GET /api/crush/:userId] lists is exactly
    the crushes of the collection whose [userId] is that identifier,
    in the order of the collection; the matches are a subsequence of
    their names; and every entry is the name of an interest recorded
    under that identifier. *)
Theorem C10_matches_subsequence_of_interests (db : DB) (uid : jsstring) :
  (exists err, fst (ServerJs.getMatches db uid) = json 500 (ErrorMessage err))
  \/ (exists l i,
        castObjectId uid = Some i
        /\ fst (ServerJs.getMatches db uid) = json 200 (Matches l)
        /\ Subseq (listByOwner db uid) (crushes db)
        /\ (forall c, In c (listByOwner db uid)
                      <-> In c (crushes db) /\ userId c = i)
        /\ Subseq l (map name (listByOwner db uid))
        /\ (forall n, In n l -> hasNamed db i n)).
Proof.
  destruct (castObjectId uid) as [i|] eqn:Hcast.
  - destruct (listByOwner_owned db uid i Hcast) as [Hsub Hown].
    assert (Hl : (exists err, fst (ServerJs.getMatches db uid)
                              = json 500 (ErrorMessage err))
                 \/ (exists l, fst (ServerJs.getMatches db uid)
                               = json 200 (Matches l)
                               /\ Subseq l (map name (listByOwner db uid)))).
    { unfold ServerJs.getMatches, listByOwner, ServerJs.getCrushes.
      destruct (Crush_find db uid) as [cs|e]; simpl; [|left; eauto].
      destruct (ServerJs.matchLoop db uid (populate_userId db cs) [])
        as [l|e] eqn:Hloop; simpl; [|left; eauto].
      right. exists l. split; [reflexivity|].
      apply matchLoop_subseq in Hloop. destruct Hloop as [l' [-> Hl']].
      simpl. rewrite populate_names in Hl'. exact Hl'. }
    destruct Hl as [Herr | (l & Hresp & Hnames)]; [left; exact Herr|].
    right. exists l, i.
    split; [reflexivity|]. split; [exact Hresp|]. split; [exact Hsub|].
    split; [exact Hown|]. split; [exact Hnames|].
    intros n Hn.
    apply (Subseq_In _ _ _ Hnames) in Hn. apply in_map_iff in Hn.
    destruct Hn as (c & Hname & Hc). apply Hown in Hc.
    destruct Hc as [Hc Hi]. exists c. auto.
  - left. unfold ServerJs.getMatches, Crush_find. rewrite Hcast.
    simpl. eauto.
Qed.

(** C8: [GET /api/matches/:userId] writes nothing, so a second call on
    the state the first one leaves gives the same answer. *)
Theorem C8_matches_idempotent (db : DB) (uid : jsstring) :
  snd (ServerJs.getMatches db uid) = db
  /\ fst (ServerJs.getMatches (snd (ServerJs.getMatches db uid)) uid)
     = fst (ServerJs.getMatches db uid).
Proof.
  assert (H : snd (ServerJs.getMatches db uid) = db)
    by apply getMatches_reads.
  split; [exact H|]. rewrite H. reflexivity.
Qed.

(** One direction of the symmetry: a registered user who named a
    registered user that named them back gets that user's name. *)
Lemma matches_contain_reciprocated (db : DB) (A B : User) (a : jsstring)
    (ca cb : Crush) :
  consistent db -> In A (users db) -> In B (users db) ->
  castObjectId a = Some (_id A) ->
  In ca (crushes db) -> userId ca = _id A -> name ca = username B ->
  In cb (crushes db) -> userId cb = _id B -> name cb = username A ->
  exists la,
    ServerJs.getMatches db a = (json 200 (Matches la), db)
    /\ In (username B) la.
Proof.
  intros Hc HA HB Hcast Hca Hca_owner Hca_name Hcb Hcb_owner Hcb_name.
  eexists. split; [apply (getMatches_registered db a A Hc HA Hcast)|].
  destruct Hc as (_ & Hnames & _).
  set (pc := mkPopulated (crush_id ca) (name ca)
               (User_findOne_id db (userId ca))).
  rewrite <- Hca_name.
  change (name ca) with (p_name pc).
  apply in_map. apply filter_In. split.
  - unfold listByOwner, ServerJs.getCrushes, Crush_find. rewrite Hcast.
    simpl. unfold populate_userId.
    apply in_map with (f := fun c => mkPopulated (crush_id c) (name c)
                                       (User_findOne_id db (userId c))).
    apply filter_In. split; [exact Hca|].
    apply N.eqb_eq. exact Hca_owner.
  - unfold reciprocated. simpl. rewrite Hca_name.
    rewrite (User_findOne_registered _ _ Hnames HB). simpl.
    destruct (Crush_findOne_present db cb Hcb) as [r' Hr'].
    rewrite Hcb_owner, Hcb_name in Hr'. rewrite Hr'. reflexivity.
Qed.

(** C2: in every state the main backend can reach, for registered
    users A and B: if A has recorded an interest named [B.username] and
    B one named [A.username], then the matches of A contain
    [B.username] and the matches of B contain [A.username]. *)
Theorem C2_matching_symmetric (reqs : list Request) (A B : User)
    (a b : jsstring) (ca cb : Crush) :
  let db := serve emptyDB reqs in
  In A (users db) -> In B (users db) ->
  castObjectId a = Some (_id A) -> castObjectId b = Some (_id B) ->
  In ca (crushes db) -> userId ca = _id A -> name ca = username B ->
  In cb (crushes db) -> userId cb = _id B -> name cb = username A ->
  exists la lb,
    ServerJs.getMatches db a = (json 200 (Matches la), db)
    /\ In (username B) la
    /\ ServerJs.getMatches db b = (json 200 (Matches lb), db)
    /\ In (username A) lb.
Proof.
  intros db HA HB Ha Hb Hca Hca_owner Hca_name Hcb Hcb_owner Hcb_name.
  assert (Hc : consistent db)
    by apply serve_consistent, emptyDB_consistent.
  destruct (matches_contain_reciprocated db A B a ca cb Hc HA HB Ha
              Hca Hca_owner Hca_name Hcb Hcb_owner Hcb_name)
    as [la [Hla Hin_la]].
  destruct (matches_contain_reciprocated db B A b cb ca Hc HB HA Hb
              Hcb Hcb_owner Hcb_name Hca Hca_owner Hca_name)
    as [lb [Hlb Hin_lb]].
  exists la, lb. auto.
Qed.

Lemma count_occ_kept (P : PopulatedCrush -> bool) (x : jsstring) :
  forall cs,
    (forall c, In c cs -> p_name c = x -> P c = true) ->
    count_occ jsstring_eq_dec (map p_name (filter P cs)) x
    = count_occ jsstring_eq_dec (map p_name cs) x.
Proof.
  induction cs as [|c cs IH]; intros HP; [reflexivity|].
  assert (IH' : count_occ jsstring_eq_dec (map p_name (filter P cs)) x
                = count_occ jsstring_eq_dec (map p_name cs) x).
  { apply IH. intros c' Hc'. apply HP. right. exact Hc'. }
  simpl. destruct (jsstring_eq_dec (p_name c) x) as [Heq|Hneq].
  - rewrite (HP c (or_introl eq_refl) Heq). simpl.
    destruct (jsstring_eq_dec (p_name c) x); [|contradiction].
    rewrite IH'. reflexivity.
  - destruct (P c); simpl; [|exact IH'].
    destruct (jsstring_eq_dec (p_name c) x); [contradiction|exact IH'].
Qed.

(** C7: recording a name is never refused because it is already
    recorded: the new document is appended to what
    [GET /api/crush/:userId] lists for its owner.  And in every state
    the main backend can reach, when the named user is registered and
    names the owner back, the matches of the owner hold the name once
    per interest of that name. *)
Theorem C7_duplicates_preserved :
  (forall (db : DB) (n uid : jsstring) (i : ObjectId),
      n <> [] -> castObjectId uid = Some i ->
      exists c,
        fst (ServerJs.postCrush db (Some n) (Some uid))
          = Sent (json 200 (CrushDoc c))
        /\ name c = n /\ userId c = i
        /\ listByOwner (snd (ServerJs.postCrush db (Some n) (Some uid))) uid
           = listByOwner db uid ++ [c])
  /\ (forall (reqs : list Request) (A B : User) (a : jsstring) (cb : Crush),
        let db := serve emptyDB reqs in
        In A (users db) -> In B (users db) ->
        castObjectId a = Some (_id A) ->
        In cb (crushes db) -> userId cb = _id B -> name cb = username A ->
        exists l,
          ServerJs.getMatches db a = (json 200 (Matches l), db)
          /\ count_occ jsstring_eq_dec l (username B)
             = count_occ jsstring_eq_dec (map name (listByOwner db a))
                 (username B)).
Proof.
  split.
  - intros db n uid i Hn Hcast. destruct n as [|ch n]; [contradiction|].
    unfold ServerJs.postCrush, Crush_save. rewrite Hcast. simpl.
    eexists. split; [reflexivity|]. repeat split.
    unfold listByOwner, ServerJs.getCrushes, Crush_find. rewrite Hcast.
    simpl. rewrite filter_app. simpl. rewrite N.eqb_refl. reflexivity.
  - intros reqs A B a cb db HA HB Hcast Hcb Hcb_owner Hcb_name.
    assert (Hc : consistent db)
      by apply serve_consistent, emptyDB_consistent.
    eexists. split; [apply (getMatches_registered db a A Hc HA Hcast)|].
    rewrite <- (populate_names db (listByOwner db a)).
    apply count_occ_kept. intros c _ Hname.
    destruct Hc as (_ & Hnames & _).
    unfold reciprocated. rewrite Hname.
    rewrite (User_findOne_registered _ _ Hnames HB). simpl.
    destruct (Crush_findOne_present db cb Hcb) as [r' Hr'].
    rewrite Hcb_owner, Hcb_name in Hr'. rewrite Hr'. reflexivity.
Qed.

(** C3, as the code has it: for a route parameter that does not
    resolve to a registered User, [GET /api/matches/:userId] never
    answers NotFound.  It answers 200 with no matches when the
    parameter is a well-formed identifier under which no interest is
    recorded, and fails with the 500 answer otherwise: a CastError for
    a malformed identifier, a TypeError as soon as one interest is
    recorded under it. *)
Theorem C3_unresolved_user_empty_or_internal (db : DB) (uid : jsstring) :
  resolveById db uid = None ->
  fst (ServerJs.getMatches db uid)
  = match castObjectId uid, listByOwner db uid with
    | None, _ => json 500 (ErrorMessage CastError)
    | Some _, [] => json 200 (Matches [])
    | Some _, _ :: _ => json 500 (ErrorMessage TypeError)
    end.
Proof.
  unfold resolveById. intros Hnone.
  unfold ServerJs.getMatches, listByOwner, ServerJs.getCrushes, Crush_find.
  destruct (castObjectId uid) as [i|] eqn:Hcast; [|reflexivity]. simpl.
  destruct (filter _ (crushes db)) as [|c cs]; [reflexivity|].
  simpl. unfold User_findById. rewrite Hcast, Hnone. reflexivity.
Qed.

(** The guarded variant does not answer NotFound either: without a
    requesting user its loop skips the crushes that name nobody and
    throws at the first that names a registered user. *)
Lemma guarded_matchLoop_unresolved (db : DB) (uid : jsstring) :
  User_findById db uid = Ok None ->
  forall cs acc,
    Validating.matchLoop db uid cs acc = Ok acc
    \/ Validating.matchLoop db uid cs acc = Throw TypeError.
Proof.
  intros Hme. induction cs as [|c cs IH]; intros acc; simpl; [auto|].
  destruct (User_findOne db (Some (p_name c))); [|apply IH].
  rewrite Hme. simpl. auto.
Qed.

Lemma guarded_unresolved_user_empty_or_internal (db : DB) (uid : jsstring) :
  resolveById db uid = None ->
  fst (Validating.getMatches db uid) = json 200 (Matches [])
  \/ exists err,
       fst (Validating.getMatches db uid) = json 500 (ErrorMessage err).
Proof.
  unfold resolveById, Validating.getMatches, Crush_find. intros Hnone.
  destruct (castObjectId uid) as [i|] eqn:Hcast; simpl; [|eauto].
  assert (Hme : User_findById db uid = Ok None).
  { unfold User_findById. rewrite Hcast, Hnone. reflexivity. }
  destruct (guarded_matchLoop_unresolved db uid Hme
              (populate_userId db
                 (filter (fun c => N.eqb (userId c) i) (crushes db))) [])
    as [-> | ->]; simpl; eauto.
Qed.

End Resolver.

(** ** Registration and login *)

Section Identity.
Context {E : Externals}.

(** C9: when the body of a register request omits [username] or
    [password], the main backend answers 500 with the TypeError of
    [.trim()] on [undefined], and the stores are left as they were. *)
Theorem C9_missing_field_internal_error (db : DB) (uname pwd : field) :
  uname = None \/ pwd = None ->
  ServerJs.register db uname pwd = (json 500 (ErrorMessage TypeError), db).
Proof.
  intros [-> | ->]; unfold ServerJs.register; simpl; [reflexivity|].
  destruct uname; reflexivity.
Qed.

Lemma register_existing (db : DB) (u p : jsstring) (existing : User) :
  In existing (users db) -> username existing = trim u ->
  ServerJs.register db (Some u) (Some p)
  = (json 400 (Message "User already exists"), db).
Proof.
  intros Hin Hname. unfold ServerJs.register. simpl.
  destruct (User_findOne db (Some (trim u))) as [found|] eqn:Hfind;
    [reflexivity|].
  exfalso. unfold User_findOne in Hfind.
  apply find_none with (x := existing) in Hfind; [|exact Hin].
  simpl in Hfind. rewrite Hname, str_eqb_refl in Hfind. discriminate.
Qed.

(** C6: in every state where a User with the (trimmed) username
    exists, registering that username again is answered 400 "User
    already exists" and leaves the stores, hence the existing record,
    untouched; and after any sequence of requests no two Users share a
    username. *)
Theorem C6_duplicate_username_conflict :
  (forall (db : DB) (u p : jsstring) (existing : User),
      In existing (users db) -> username existing = trim u ->
      ServerJs.register db (Some u) (Some p)
      = (json 400 (Message "User already exists"), db))
  /\ (forall reqs : list Request,
        NoDup (map username (users (serve emptyDB reqs)))).
Proof.
  split.
  - apply register_existing.
  - intros reqs.
    destruct (serve_consistent reqs emptyDB emptyDB_consistent)
      as (_ & Hnames & _).
    exact Hnames.
Qed.

(** The first registration of a username succeeds and stores the
    trimmed name with the hash of the trimmed password. *)
Lemma register_fresh (db : DB) (u p : jsstring) :
  trim u <> [] -> trim p <> [] ->
  (forall x, In x (users db) -> username x <> trim u) ->
  ServerJs.register db (Some u) (Some p)
  = (json 200 (Message "User registered successfully"),
     mkDB (users db
             ++ [mkUser (nextId db) (trim u)
                   (bcrypt_hash (trim p) (genSalt (nextId db)))])
          (crushes db) (N.succ (nextId db))).
Proof.
  intros Hu Hp Hfresh. unfold ServerJs.register. simpl.
  rewrite (User_findOne_unregistered db (trim u) Hfresh).
  unfold User_save.
  destruct (trim u) as [|c tu] eqn:Htu; [contradiction|].
  destruct (trim p) as [|d tp] eqn:Htp; [contradiction|].
  assert (Hex : existsb (fun x => str_eqb (username x) (c :: tu)) (users db)
                = false).
  { destruct (existsb _ (users db)) eqn:Hex; [|reflexivity].
    apply existsb_exists in Hex. destruct Hex as [x [Hx Heq]].
    apply str_eqb_eq in Heq. exfalso. exact (Hfresh x Hx Heq). }
  rewrite Hex. reflexivity.
Qed.

(** What the main backend does with a blank username or password: the
    model's validation throws and the answer is 500, not 400. *)
Lemma register_blank_internal_error (db : DB) (u p : jsstring) :
  trim u = [] \/ trim p = [] ->
  User_findOne db (Some (trim u)) = None ->
  ServerJs.register db (Some u) (Some p)
  = (json 500 (ErrorMessage ValidationError), db).
Proof.
  intros Hblank Hnone. unfold ServerJs.register. simpl. rewrite Hnone.
  unfold User_save.
  destruct Hblank as [-> | ->]; [reflexivity|].
  destruct (trim u); reflexivity.
Qed.

(** X24: the validating variant answers a register request whose
    username or password is blank after trimming with 400 and writes
    nothing. *)
Lemma validating_register_blank (db : DB) (u p : jsstring) :
  trim u = [] \/ trim p = [] ->
  Validating.register db (Some u) (Some p)
  = (json 400 (Message "Username and password are required"), db).
Proof.
  intros Hblank. unfold Validating.register. simpl.
  destruct Hblank as [-> | ->]; [reflexivity|].
  destruct (trim u); reflexivity.
Qed.

(** The two failures of a login, in the main backend and in the
    validating variant. *)
Lemma login_unknown_user (db : DB) (uname pwd : field) :
  User_findOne db uname = None ->
  fst (ServerJs.login db uname pwd) = json 400 (Message "Invalid username")
  /\ fst (Validating.login db uname pwd)
     = json 400 (Message "Invalid username or password").
Proof.
  intros Hnone.
  unfold ServerJs.login, Validating.login.
  rewrite Hnone. auto.
Qed.

Lemma login_wrong_password (db : DB) (uname pwd : field) (user : User) :
  User_findOne db uname = Some user ->
  compare pwd (password user) = Ok false ->
  fst (ServerJs.login db uname pwd) = json 400 (Message "Invalid password")
  /\ fst (Validating.login db uname pwd)
     = json 400 (Message "Invalid username or password").
Proof.
  intros Huser Hcmp.
  unfold ServerJs.login, Validating.login.
  rewrite Huser, Hcmp. auto.
Qed.

(** The same two failures in the self-contained variant, whose lookup
    is by the trimmed username. *)
Lemma standalone_login_unknown_user (db : DB) (uname pwd : field) :
  Standalone.findUser db uname = None ->
  fst (Standalone.login db uname pwd)
  = json 401 (Message "Invalid credentials").
Proof.
  intros Hnone. unfold Standalone.login. rewrite Hnone. reflexivity.
Qed.

Lemma standalone_login_wrong_password (db : DB) (uname pwd : field)
    (user : User) :
  Standalone.findUser db uname = Some user ->
  compare pwd (password user) = Ok false ->
  fst (Standalone.login db uname pwd)
  = json 401 (Message "Invalid credentials").
Proof.
  intros Huser Hcmp. unfold Standalone.login.
  rewrite Huser, Hcmp. reflexivity.
Qed.

(** X23: the self-contained and the validating variants each answer a
    login for a username their lookup does not find and a login with a
    wrong password with the same response; the lookup of the
    self-contained variant is by the trimmed username, that of the
    validating variant by the username as sent. *)
Lemma variants_login_failures_alike :
  (forall (db : DB) (u1 p1 u2 p2 : field) (user : User),
      Standalone.findUser db u1 = None ->
      Standalone.findUser db u2 = Some user ->
      compare p2 (password user) = Ok false ->
      fst (Standalone.login db u1 p1) = fst (Standalone.login db u2 p2))
  /\ (forall (db : DB) (u1 p1 u2 p2 : field) (user : User),
        User_findOne db u1 = None ->
        User_findOne db u2 = Some user ->
        compare p2 (password user) = Ok false ->
        fst (Validating.login db u1 p1) = fst (Validating.login db u2 p2)).
Proof.
  split; intros db u1 p1 u2 p2 user Hnone Huser Hcmp.
  - rewrite (standalone_login_unknown_user db u1 p1 Hnone).
    rewrite (standalone_login_wrong_password db u2 p2 user Huser Hcmp).
    reflexivity.
  - destruct (login_unknown_user db u1 p1 Hnone) as (_ & ->).
    destruct (login_wrong_password db u2 p2 user Huser Hcmp) as (_ & ->).
    reflexivity.
Qed.

(** The main backend never does. *)
Lemma server_js_login_failures_differ (db : DB) (u1 p1 u2 p2 : field)
    (user : User) :
  User_findOne db u1 = None ->
  User_findOne db u2 = Some user ->
  compare p2 (password user) = Ok false ->
  fst (ServerJs.login db u1 p1) <> fst (ServerJs.login db u2 p2).
Proof.
  intros Hnone Huser Hcmp.
  destruct (login_unknown_user db u1 p1 Hnone) as (-> & _).
  destruct (login_wrong_password db u2 p2 user Huser Hcmp) as (-> & _).
  discriminate.
Qed.

End Identity.

(** ** Names that are nobody's username *)

Section UnregisteredNames.
Context {E : Externals}.

(** The guarded resolver never reports a name that is nobody's
    username. *)
Lemma guarded_matches_only_registered (db : DB) (uid n : jsstring)
    (l : list jsstring) :
  fst (Validating.getMatches db uid) = json 200 (Matches l) ->
  User_findOne db (Some n) = None -> ~ In n l.
Proof.
  unfold Validating.getMatches. intros Hresp Hnone Hin.
  destruct (Crush_find db uid) as [cs|e]; simpl in Hresp; [|discriminate].
  destruct (Validating.matchLoop db uid (populate_userId db cs) [])
    as [l0|e] eqn:Hloop; simpl in Hresp; [|discriminate].
  injection Hresp as <-.
  destruct (guarded_matchLoop_registered_names db uid _ _ _ Hloop n Hin)
    as [[]|[u [Hu Hname]]].
  unfold User_findOne in Hnone.
  apply find_none with (x := u) in Hnone; [|exact Hu].
  simpl in Hnone. rewrite Hname, str_eqb_refl in Hnone. discriminate.
Qed.

(** Nor does the main backend when an [undefined] filter value is sent
    as null. *)
Lemma null_matches_only_registered (db : DB) (uid n : jsstring)
    (l : list jsstring) :
  ignoreUndefined = false ->
  fst (ServerJs.getMatches db uid) = json 200 (Matches l) ->
  User_findOne db (Some n) = None -> ~ In n l.
Proof.
  unfold ServerJs.getMatches. intros Hnull Hresp Hnone Hin.
  destruct (Crush_find db uid) as [cs|e]; simpl in Hresp; [|discriminate].
  destruct (ServerJs.matchLoop db uid (populate_userId db cs) [])
    as [l0|e] eqn:Hloop; simpl in Hresp; [|discriminate].
  injection Hresp as <-.
  destruct (null_matchLoop_registered_names db uid Hnull _ _ _ Hloop n Hin)
    as [[]|[u [Hu Hname]]].
  unfold User_findOne in Hnone.
  apply find_none with (x := u) in Hnone; [|exact Hu].
  simpl in Hnone. rewrite Hname, str_eqb_refl in Hnone. discriminate.
Qed.

(** C1: for every registered user and every name that is nobody's
    username, whatever else the stores hold, the main backend answers
    [GET /api/matches/:userId] with a sequence that does not contain
    the name (the driver sending an [undefined] filter value as null,
    as it does unless configured otherwise). *)
Theorem C1_unregistered_name_never_matched (db : DB) (a n : jsstring)
    (A : User) :
  ignoreUndefined = false ->
  resolveById db a = Some A ->
  (forall u, In u (users db) -> username u <> n) ->
  exists l,
    ServerJs.getMatches db a = (json 200 (Matches l), db) /\ ~ In n l.
Proof.
  intros Hnull HA Hnobody.
  eexists. split; [apply (getMatches_resolved db a A HA)|].
  apply (null_matches_only_registered db a n _ Hnull).
  - rewrite (getMatches_resolved db a A HA). reflexivity.
  - apply User_findOne_unregistered. exact Hnobody.
Qed.

(** X25: the guarded variant never lists a name that is nobody's
    username among the matches, whatever the driver does with
    [undefined]. *)
Lemma guarded_unregistered_name_never_matched (db : DB) (uid n : jsstring)
    (l : list jsstring) :
  (forall u, In u (users db) -> username u <> n) ->
  fst (Validating.getMatches db uid) = json 200 (Matches l) -> ~ In n l.
Proof.
  intros Hnobody Hresp.
  apply (guarded_matches_only_registered db uid n l Hresp).
  apply User_findOne_unregistered. exact Hnobody.
Qed.

End UnregisteredNames.

(** ** The handlers on concrete states *)

Example trim_examples :
  trim (lit "  alice ") = lit "alice"
  /\ trim (lit "a b") = lit "a b"
  /\ trim ([9; 10; 13; 160; 8203; 32; 65279]%N) = [8203%N]
  /\ trim (lit "   ") = [].
Proof. repeat split; reflexivity. Qed.

(** Before bob names alice back, alice has no match. *)
Example scenario_pending :
  fst (@ServerJs.getMatches libs
         (@serve libs emptyDB (firstn 3 mutualRequests)) oid0)
  = json 200 (Matches []).
Proof. vm_compute. reflexivity. Qed.

(** The scenario of the specification: alice names bob, bob names
    alice, and each is the other's match. *)
Example scenario_mutual :
  fst (@ServerJs.getMatches libs mutualDB oid0)
    = json 200 (Matches [lit "bob"; lit "bob"])
  /\ fst (@ServerJs.getMatches libs mutualDB oid1)
     = json 200 (Matches [lit "alice"]).
Proof. split; vm_compute; reflexivity. Qed.

(** alice has named "ghost", nobody's username, and carol has named
    "alice": the matches of alice are empty in both variants.  The main
    backend owes this to the driver: were [ignoreUndefined] turned on,
    its reverse lookup for "ghost" would lose its [userId], find
    carol's crush and report "ghost"; the guarded variant would not. *)
Example scenario_nonexistent :
  fst (@ServerJs.getMatches libs ghostDB oid0) = json 200 (Matches [])
  /\ fst (@Validating.getMatches libs ghostDB oid0) = json 200 (Matches [])
  /\ fst (@ServerJs.getMatches droppingLibs ghostDB oid0)
     = json 200 (Matches [lit "ghost"])
  /\ fst (@Validating.getMatches droppingLibs ghostDB oid0)
     = json 200 (Matches []).
Proof. repeat split; vm_compute; reflexivity. Qed.

(** C3 as stated fails: [oid7] is a well-formed identifier that
    designates no User, and the main backend answers 200 with an empty
    sequence, not NotFound. *)
Lemma C3_unknown_user_gets_empty_result :
  @resolveById libs mutualDB oid7 = None
  /\ fst (@ServerJs.getMatches libs mutualDB oid7) = json 200 (Matches [])
  /\ status (fst (@ServerJs.getMatches libs mutualDB oid7)) <> 404%N.
Proof. repeat split; vm_compute; [reflexivity..|discriminate]. Qed.

(** C4 on the main backend: "zed" is nobody's username, "alice" is
    registered with another password, and the two logins are answered
    with different messages. *)
Theorem C4_server_js_login_tells_failures_apart :
  @User_findOne libs mutualDB (Some (lit "zed")) = None
  /\ @User_findOne libs mutualDB (Some (lit "alice")) = Some alice
  /\ @compare libs (Some (lit "nope")) (password alice) = Ok false
  /\ fst (@ServerJs.login libs mutualDB (Some (lit "zed")) (Some (lit "nope")))
     = json 400 (Message "Invalid username")
  /\ fst (@ServerJs.login libs mutualDB (Some (lit "alice")) (Some (lit "nope")))
     = json 400 (Message "Invalid password").
Proof. repeat split; vm_compute; reflexivity. Qed.

(** C5 on the main backend: a username of three spaces is empty after
    trimming, and the answer is the 500 of the model's validation
    error, where the validating variant answers 400.  No User is
    created by either. *)
Theorem C5_server_js_blank_username_internal_error :
  trim (lit "   ") = []
  /\ @ServerJs.register libs emptyDB (Some (lit "   ")) (Some (lit "pw"))
     = (json 500 (ErrorMessage ValidationError), emptyDB)
  /\ @Validating.register libs emptyDB (Some (lit "   ")) (Some (lit "pw"))
     = (json 400 (Message "Username and password are required"), emptyDB).
Proof. repeat split; vm_compute; reflexivity. Qed.

(** ** Instances *)

Lemma C1_unregistered_name_witness :
  exists l,
    @ServerJs.getMatches libs ghostDB oid0 = (json 200 (Matches l), ghostDB)
    /\ ~ In (lit "ghost") l.
Proof.
  apply (@C1_unregistered_name_never_matched libs ghostDB oid0 (lit "ghost")
           alice).
  - reflexivity.
  - reflexivity.
  - vm_compute. intros u [<-|[<-|[]]]; discriminate.
Defined.

Lemma C2_matching_symmetric_witness :
  exists la lb,
    @ServerJs.getMatches libs mutualDB oid0 = (json 200 (Matches la), mutualDB)
    /\ In (lit "bob") la
    /\ @ServerJs.getMatches libs mutualDB oid1
       = (json 200 (Matches lb), mutualDB)
    /\ In (lit "alice") lb.
Proof.
  apply (@C2_matching_symmetric libs mutualRequests alice bob oid0 oid1
           (mkCrush 2%N (lit "bob") 0%N) (mkCrush 4%N (lit "alice") 1%N)).
  - vm_compute. left. reflexivity.
  - vm_compute. right. left. reflexivity.
  - reflexivity.
  - reflexivity.
  - vm_compute. left. reflexivity.
  - reflexivity.
  - reflexivity.
  - vm_compute. right. right. left. reflexivity.
  - reflexivity.
  - reflexivity.
Defined.

Lemma C3_unresolved_user_witness :
  @resolveById libs strandedDB oid7 = None
  /\ fst (@ServerJs.getMatches libs strandedDB oid7)
     = json 500 (ErrorMessage TypeError).
Proof.
  split; [reflexivity|].
  exact (@C3_unresolved_user_empty_or_internal libs strandedDB oid7 eq_refl).
Defined.

Lemma C6_duplicate_username_witness :
  In alice (users mutualDB)
  /\ username alice = trim (lit "  alice")
  /\ @ServerJs.register libs mutualDB (Some (lit "  alice")) (Some (lit "other"))
     = (json 400 (Message "User already exists"), mutualDB).
Proof.
  assert (Hin : In alice (users mutualDB)) by (vm_compute; left; reflexivity).
  assert (Hname : username alice = trim (lit "  alice")) by reflexivity.
  split; [exact Hin|]. split; [exact Hname|].
  exact (proj1 (@C6_duplicate_username_conflict libs) mutualDB
           (lit "  alice") (lit "other") alice Hin Hname).
Defined.

Lemma C7_duplicates_witness :
  exists l,
    @ServerJs.getMatches libs mutualDB oid0 = (json 200 (Matches l), mutualDB)
    /\ count_occ jsstring_eq_dec l (lit "bob") = 2.
Proof.
  apply (proj2 (@C7_duplicates_preserved libs) mutualRequests alice bob oid0
           (mkCrush 4%N (lit "alice") 1%N)).
  - vm_compute. left. reflexivity.
  - vm_compute. right. left. reflexivity.
  - reflexivity.
  - vm_compute. right. right. left. reflexivity.
  - reflexivity.
  - reflexivity.
Defined.

Lemma C9_missing_field_witness :
  @ServerJs.register libs mutualDB None (Some (lit "pw"))
  = (json 500 (ErrorMessage TypeError), mutualDB).
Proof.
  apply (@C9_missing_field_internal_error libs mutualDB None (Some (lit "pw"))).
  left. reflexivity.
Defined.

(** * Further properties of the handlers *)

(** ** Trimming *)

Lemma trimStart_fixed (s : jsstring) : trimStart (trimStart s) = trimStart s.
Proof.
  induction s as [|c s IH]; [reflexivity|].
  simpl. destruct (isWhiteSpace c) eqn:Hc; [exact IH|].
  simpl. rewrite Hc. reflexivity.
Qed.

Lemma trimStart_head (s r : jsstring) (c : N) :
  trimStart s = c :: r -> isWhiteSpace c = false.
Proof.
  induction s as [|d s IH]; simpl; [discriminate|].
  destruct (isWhiteSpace d) eqn:Hd; [exact IH|].
  intros H. injection H as -> _. exact Hd.
Qed.

Lemma trimStart_snoc (l : jsstring) (c : N) :
  isWhiteSpace c = false -> trimStart (l ++ [c]) = trimStart l ++ [c].
Proof.
  intros Hc. induction l as [|d l IH]; simpl.
  - rewrite Hc. reflexivity.
  - destruct (isWhiteSpace d); [exact IH|reflexivity].
Qed.

Lemma trimEnd_cons (c : N) (r : jsstring) :
  isWhiteSpace c = false ->
  trimEnd (c :: r) = c :: trimEnd r.
Proof.
  intros Hc. unfold trimEnd. simpl.
  rewrite (trimStart_snoc (rev r) c Hc), rev_app_distr. reflexivity.
Qed.

Lemma trimEnd_fixed (s : jsstring) : trimEnd (trimEnd s) = trimEnd s.
Proof.
  unfold trimEnd. rewrite rev_involutive, trimStart_fixed. reflexivity.
Qed.

(** [s.trim().trim()] is [s.trim()]. *)
Lemma trim_fixed (s : jsstring) : trim (trim s) = trim s.
Proof.
  unfold trim. destruct (trimStart s) as [|c r] eqn:Hs; [reflexivity|].
  pose proof (trimStart_head s r c Hs) as Hc.
  rewrite (trimEnd_cons c r Hc). simpl. rewrite Hc.
  rewrite (trimEnd_cons c (trimEnd r) Hc), trimEnd_fixed. reflexivity.
Qed.

(** ** What the requests write *)

Lemma find_app_some (A : Type) (p : A -> bool) (l l' : list A) (x : A) :
  find p l = Some x -> find p (l ++ l') = Some x.
Proof.
  induction l as [|a l IH]; simpl; [discriminate|].
  destruct (p a); auto.
Qed.

Lemma find_app_none (A : Type) (p : A -> bool) (l l' : list A) :
  find p l = None -> find p (l ++ l') = find p l'.
Proof.
  induction l as [|a l IH]; simpl; [reflexivity|].
  destruct (p a); [discriminate|exact IH].
Qed.

Section Writes.
Context {E : Externals}.

(** The one way the main backend writes a User. *)
Lemma register_writes (db : DB) (uname pwd : field) :
  snd (ServerJs.register db uname pwd) = db
  \/ exists u p,
       uname = Some u /\ pwd = Some p
       /\ trim u <> [] /\ trim p <> []
       /\ User_findOne db (Some (trim u)) = None
       /\ ServerJs.register db uname pwd
          = (json 200 (Message "User registered successfully"),
             mkDB (users db
                     ++ [mkUser (nextId db) (trim u)
                           (bcrypt_hash (trim p) (genSalt (nextId db)))])
                  (crushes db) (N.succ (nextId db))).
Proof.
  unfold ServerJs.register.
  destruct uname as [u|]; [|left; reflexivity].
  destruct pwd as [p|]; [|left; reflexivity]. simpl.
  destruct (User_findOne db (Some (trim u))) eqn:Hfind; [left; reflexivity|].
  unfold User_save.
  destruct (trim u) as [|c tu] eqn:Htu; [left; reflexivity|].
  destruct (trim p) as [|d tp] eqn:Htp; [left; reflexivity|].
  destruct (existsb _ (users db)) eqn:Hex; [left; reflexivity|].
  right. exists u, p. rewrite Htu, Htp. simpl.
  repeat split; try discriminate. exact Hfind.
Qed.

(** The one way it writes a Crush. *)
Lemma postCrush_writes (db : DB) (nm uid : field) :
  (exists err, ServerJs.postCrush db nm uid = (Unhandled err, db))
  \/ exists n u i,
       nm = Some n /\ uid = Some u /\ n <> [] /\ castObjectId u = Some i
       /\ ServerJs.postCrush db nm uid
          = (Sent (json 200 (CrushDoc (mkCrush (nextId db) n i))),
             mkDB (users db) (crushes db ++ [mkCrush (nextId db) n i])
                  (N.succ (nextId db))).
Proof.
  unfold ServerJs.postCrush, Crush_save.
  destruct nm as [[|c n]|]; try (left; eauto; fail).
  destruct uid as [u|]; [|left; eauto].
  destruct (castObjectId u) as [i|] eqn:Hcast; [|left; eauto].
  right. exists (c :: n), u, i. repeat split; auto. discriminate.
Qed.

Lemma extends_refl (db : DB) : extends db db.
Proof. split; exists []; rewrite app_nil_r; reflexivity. Qed.

Lemma extends_trans (db1 db2 db3 : DB) :
  extends db1 db2 -> extends db2 db3 -> extends db1 db3.
Proof.
  intros [[us1 Hu1] [cs1 Hc1]] [[us2 Hu2] [cs2 Hc2]]. split.
  - exists (us1 ++ us2). rewrite Hu2, Hu1, app_assoc. reflexivity.
  - exists (cs1 ++ cs2). rewrite Hc2, Hc1, app_assoc. reflexivity.
Qed.

Lemma handle_extends (db : DB) (req : Request) :
  extends db (snd (handle db req)).
Proof.
  destruct req as [u p|u p|n u|u| |u]; simpl.
  - destruct (register_writes db u p)
      as [-> | (u' & p' & _ & _ & _ & _ & _ & ->)].
    + apply extends_refl.
    + split; simpl; [eexists; reflexivity|].
      exists []. rewrite app_nil_r. reflexivity.
  - rewrite login_reads. apply extends_refl.
  - destruct (postCrush_writes db n u)
      as [[err ->] | (n' & u' & i & _ & _ & _ & _ & ->)].
    + apply extends_refl.
    + split; simpl; [|eexists; reflexivity].
      exists []. rewrite app_nil_r. reflexivity.
  - rewrite getCrushes_reads. apply extends_refl.
  - apply extends_refl.
  - rewrite getMatches_reads. apply extends_refl.
Qed.

Lemma serve_extends (reqs : list Request) (db : DB) :
  extends db (serve db reqs).
Proof.
  revert db. induction reqs as [|r reqs IH]; intros db; simpl.
  - apply extends_refl.
  - apply extends_trans with (db2 := snd (handle db r)).
    + apply handle_extends.
    + apply IH.
Qed.

(** X1: no request to the main backend updates or deletes anything:
    after any sequence of requests both collections are what they were,
    in the same order, with new documents after. *)
Theorem serve_only_appends (reqs : list Request) (db : DB) :
  extends db (serve db reqs).
Proof. exact (serve_extends reqs db). Qed.

Lemma register_outcome (db : DB) (uname pwd : field) :
  (status (fst (ServerJs.register db uname pwd)) <> 200%N
   /\ snd (ServerJs.register db uname pwd) = db)
  \/ exists u p,
       uname = Some u /\ pwd = Some p
       /\ ServerJs.register db uname pwd
          = (json 200 (Message "User registered successfully"),
             mkDB (users db
                     ++ [mkUser (nextId db) (trim u)
                           (bcrypt_hash (trim p) (genSalt (nextId db)))])
                  (crushes db) (N.succ (nextId db))).
Proof.
  unfold ServerJs.register.
  destruct uname as [u|]; [|left; split; [discriminate|reflexivity]].
  destruct pwd as [p|]; [|left; split; [discriminate|reflexivity]]. simpl.
  destruct (User_findOne db (Some (trim u)));
    [left; split; [discriminate|reflexivity]|].
  unfold User_save.
  destruct (trim u) as [|c tu] eqn:Htu;
    [left; split; [discriminate|reflexivity]|].
  destruct (trim p) as [|d tp] eqn:Htp;
    [left; split; [discriminate|reflexivity]|].
  destruct (existsb _ (users db));
    [left; split; [discriminate|reflexivity]|].
  right. exists u, p. rewrite Htu, Htp. auto.
Qed.

(** X2: the main backend's register writes only when it answers 200:
    every other answer leaves the stores as they were, and a 200
    answer has appended exactly one User, called by the trimmed
    username, and left the crushes alone. *)
Theorem register_writes_only_on_success (db : DB) (uname pwd : field) :
  (status (fst (ServerJs.register db uname pwd)) <> 200%N ->
   snd (ServerJs.register db uname pwd) = db)
  /\ (status (fst (ServerJs.register db uname pwd)) = 200%N ->
      exists u x,
        uname = Some u
        /\ username x = trim u
        /\ users (snd (ServerJs.register db uname pwd)) = users db ++ [x]
        /\ crushes (snd (ServerJs.register db uname pwd)) = crushes db).
Proof.
  destruct (register_outcome db uname pwd)
    as [[Hstatus Hsame] | (u & p & Hu & _ & Hreg)].
  - split; [intros _; exact Hsame|]. intros H200. contradiction.
  - rewrite Hreg. simpl. split; [intros H; contradiction|].
    intros _. eexists u, _. repeat split; [exact Hu|reflexivity..].
Qed.

End Writes.

(** ** What the Users collection holds *)

Section StoredUsers.
Context {E : Externals}.

(** A property of every User document the main backend can write holds
    of every User after any sequence of requests. *)
Lemma serve_users_forall (P : User -> Prop) :
  (forall u p k, trim u <> [] -> trim p <> [] ->
     P (mkUser k (trim u) (bcrypt_hash (trim p) (genSalt k)))) ->
  forall reqs db,
    (forall x, In x (users db) -> P x) ->
    forall x, In x (users (serve db reqs)) -> P x.
Proof.
  intros Hnew. induction reqs as [|r reqs IH]; intros db Hdb x Hx;
    simpl in Hx; [auto|].
  apply (IH (snd (handle db r))); [|exact Hx].
  clear x Hx. intros x Hx.
  destruct r as [u p|u p|n u|u| |u]; simpl in Hx.
  - destruct (register_writes db u p)
      as [Hsame | (u' & p' & _ & _ & Hu & Hp & _ & Hreg)].
    + rewrite Hsame in Hx. auto.
    + rewrite Hreg in Hx. simpl in Hx.
      apply in_app_or in Hx. destruct Hx as [Hx|[<-|[]]]; auto.
  - rewrite login_reads in Hx. auto.
  - destruct (postCrush_writes db n u)
      as [[err Hsame] | (n' & u' & i & _ & _ & _ & _ & Hpost)].
    + rewrite Hsame in Hx. auto.
    + rewrite Hpost in Hx. auto.
  - rewrite getCrushes_reads in Hx. auto.
  - auto.
  - rewrite getMatches_reads in Hx. auto.
Qed.

(** X3: after any sequence of requests to the main backend, every stored
    username is non-empty and has no whitespace at either end. *)
Theorem stored_usernames_trimmed (reqs : list Request) (x : User) :
  In x (users (serve emptyDB reqs)) ->
  username x <> [] /\ trim (username x) = username x.
Proof.
  apply (serve_users_forall
           (fun x => username x <> [] /\ trim (username x) = username x)).
  - intros u p k Hu _. simpl. split; [exact Hu|apply trim_fixed].
  - intros y [].
Qed.

(** X5: registering a new name and then logging in with the trimmed
    username and password opens a session for the new User, as long as
    bcrypt accepts a secret against its own hash. *)
Theorem register_then_login (db : DB) (u p : jsstring) :
  trim u <> [] -> trim p <> [] ->
  (forall x, In x (users db) -> username x <> trim u) ->
  bcrypt_compare (trim p) (bcrypt_hash (trim p) (genSalt (nextId db))) = true ->
  fst (ServerJs.login (snd (ServerJs.register db (Some u) (Some p)))
         (Some (trim u)) (Some (trim p)))
  = json 200 (Session (jwt_sign (nextId db)) (nextId db)).
Proof.
  intros Hu Hp Hfresh Hbcrypt.
  rewrite (register_fresh db u p Hu Hp Hfresh). simpl.
  unfold ServerJs.login.
  assert (Hfind : User_findOne
            (mkDB (users db
                     ++ [mkUser (nextId db) (trim u)
                           (bcrypt_hash (trim p) (genSalt (nextId db)))])
                  (crushes db) (N.succ (nextId db)))
            (Some (trim u))
          = Some (mkUser (nextId db) (trim u)
                    (bcrypt_hash (trim p) (genSalt (nextId db))))).
  { pose proof (User_findOne_unregistered db (trim u) Hfresh) as Hnone.
    unfold User_findOne in *. simpl in *.
    rewrite (find_app_none _ _ _ _ Hnone).
    simpl. rewrite str_eqb_refl. reflexivity. }
  rewrite Hfind. simpl. rewrite Hbcrypt. reflexivity.
Qed.

(** X6: registering with a password that has whitespace at an end
    and then logging in with the password as typed is refused: the
    stored hash is of the trimmed password, the login compares the
    password as sent, and bcrypt tells the two apart. *)
Theorem padded_password_refused (db : DB) (u p : jsstring) :
  trim u <> [] -> trim p <> [] ->
  (forall x, In x (users db) -> username x <> trim u) ->
  bcrypt_compare p (bcrypt_hash (trim p) (genSalt (nextId db))) = false ->
  fst (ServerJs.login (snd (ServerJs.register db (Some u) (Some p)))
         (Some (trim u)) (Some p))
  = json 400 (Message "Invalid password").
Proof.
  intros Hu Hp Hfresh Hbcrypt.
  rewrite (register_fresh db u p Hu Hp Hfresh). simpl.
  pose proof (User_findOne_unregistered db (trim u) Hfresh) as Hnone.
  unfold ServerJs.login, User_findOne in *. simpl in *.
  rewrite (find_app_none _ _ _ _ Hnone).
  simpl. rewrite str_eqb_refl. simpl. rewrite Hbcrypt. reflexivity.
Qed.

End StoredUsers.

(** ** Recording and listing crushes *)

Section Crushes.
Context {E : Externals}.

(** X7: the main backend sends no response at all to a crush without a
    name, with an empty name, without a userId or with a userId that is
    not an ObjectId: the rejected [save()] is not caught.  Nothing is
    written. *)
Theorem postCrush_unanswered (db : DB) (nm uid : field) :
  falsy nm = true
  \/ match uid with
     | Some u => castObjectId u = None
     | None => True
     end ->
  ServerJs.postCrush db nm uid = (Unhandled ValidationError, db).
Proof.
  unfold ServerJs.postCrush, Crush_save.
  intros [Hnm | Huid].
  - destruct nm as [[|c n]|]; try discriminate; reflexivity.
  - destruct nm as [[|c n]|]; try reflexivity.
    destruct uid as [u|]; [|reflexivity]. rewrite Huid. reflexivity.
Qed.

(** X8: recording a crush under one identifier leaves what
    [GET /api/crush/:userId] lists for every other identifier as it
    was. *)
Theorem postCrush_leaves_other_lists (db : DB) (nm uid : field)
    (other : jsstring) :
  (forall u, uid = Some u -> castObjectId u <> castObjectId other) ->
  listByOwner (snd (ServerJs.postCrush db nm uid)) other
  = listByOwner db other.
Proof.
  intros Hother.
  destruct (postCrush_writes db nm uid)
    as [[err ->] | (n & u & i & _ & -> & _ & Hcast & ->)]; [reflexivity|].
  unfold listByOwner, ServerJs.getCrushes, Crush_find. simpl.
  destruct (castObjectId other) as [j|] eqn:Hj; [|reflexivity]. simpl.
  rewrite filter_app. simpl.
  destruct (N.eqb i j) eqn:Hij.
  - apply N.eqb_eq in Hij. subst j.
    exfalso. apply (Hother u eq_refl). congruence.
  - apply app_nil_r.
Qed.

(** X9: where the main backend leaves a crush request unanswered, the
    validating variant answers 400 or 500; both write the same, and a
    success is answered with the same document. *)
Theorem validating_postCrush_answers (db : DB) (nm uid : field) :
  castObjectId [] = None ->
  snd (Validating.postCrush db nm uid) = snd (ServerJs.postCrush db nm uid)
  /\ match fst (ServerJs.postCrush db nm uid) with
     | Sent r =>
         fst (Validating.postCrush db nm uid) = json 201 (body r)
     | Unhandled err =>
         fst (Validating.postCrush db nm uid)
         = (if falsy nm || falsy uid
            then json 400 (Message "Name and userId are required")
            else json 500 (ErrorMessage err))
     end.
Proof.
  intros Hempty.
  unfold Validating.postCrush, ServerJs.postCrush, Crush_save.
  destruct nm as [[|c n]|]; simpl; auto.
  destruct uid as [[|d u]|]; simpl; auto.
  - rewrite Hempty. simpl. auto.
  - destruct (castObjectId (d :: u)); simpl; auto.
Qed.

End Crushes.

(** ** Who is matched *)

Lemma Subseq_filter_weaken (A : Type) (P Q : A -> bool) :
  (forall x, P x = true -> Q x = true) ->
  forall l e, Subseq (filter P l) (filter Q (l ++ e)).
Proof.
  intros HPQ. induction l as [|a l IH]; intros e; simpl.
  - apply Subseq_nil_l.
  - destruct (P a) eqn:HP.
    + rewrite (HPQ a HP). apply Subseq_keep. apply IH.
    + destruct (Q a); [apply Subseq_skip|]; apply IH.
Qed.

Section Matched.
Context {E : Externals}.

(** Both loops test a crush by its name alone. *)
Lemma reciprocated_names (db d : DB) (m : jsstring) (cs : list Crush) :
  map p_name (filter (reciprocated db m) (populate_userId d cs))
  = filter (fun n => reciprocated db m (mkPopulated 0%N n None))
      (map name cs).
Proof.
  induction cs as [|c cs IH]; [reflexivity|].
  change (populate_userId d (c :: cs))
    with (mkPopulated (crush_id c) (name c) (User_findOne_id d (userId c))
            :: populate_userId d cs).
  change (map name (c :: cs)) with (name c :: map name cs).
  cbn [filter].
  change (reciprocated db m
            (mkPopulated (crush_id c) (name c) (User_findOne_id d (userId c))))
    with (reciprocated db m (mkPopulated 0%N (name c) None)).
  destruct (reciprocated db m (mkPopulated 0%N (name c) None));
    cbn [map p_name]; rewrite IH; reflexivity.
Qed.

Lemma guarded_matchLoop_registered (db : DB) (uid : jsstring) (me : User) :
  User_findById db uid = Ok (Some me) ->
  forall cs acc,
    Validating.matchLoop db uid cs acc
    = Ok (acc ++ map p_name
                   (filter (guardedReciprocated db (username me)) cs)).
Proof.
  intros Hme. induction cs as [|c cs IH]; intros acc; simpl.
  - rewrite app_nil_r. reflexivity.
  - unfold guardedReciprocated at 1.
    destruct (User_findOne db (Some (p_name c))) as [user|]; [|apply IH].
    rewrite Hme. simpl.
    destruct (Crush_findOne db (Some (_id user)) (Some (username me)));
      rewrite IH.
    + simpl. rewrite <- app_assoc. reflexivity.
    + reflexivity.
Qed.

Lemma guarded_getMatches_resolved (db : DB) (uid : jsstring) (me : User) :
  resolveById db uid = Some me ->
  Validating.getMatches db uid
  = (json 200 (Matches (map p_name
       (filter (guardedReciprocated db (username me))
          (populate_userId db (listByOwner db uid))))), db).
Proof.
  unfold resolveById. intros Hres.
  destruct (castObjectId uid) as [i|] eqn:Hcast; [|discriminate].
  assert (Hme : User_findById db uid = Ok (Some me)).
  { unfold User_findById. rewrite Hcast, Hres. reflexivity. }
  unfold Validating.getMatches, listByOwner, ServerJs.getCrushes, Crush_find.
  rewrite Hcast. simpl.
  rewrite (guarded_matchLoop_registered db uid me Hme). reflexivity.
Qed.

Lemma reciprocated_guarded (db : DB) (m : jsstring) (c : PopulatedCrush) :
  ignoreUndefined = false ->
  reciprocated db m c = guardedReciprocated db m c.
Proof.
  intros Hnull. unfold reciprocated, guardedReciprocated.
  destruct (User_findOne db (Some (p_name c))); simpl; [reflexivity|].
  rewrite (Crush_findOne_null db (Some m) Hnull). reflexivity.
Qed.

Lemma getMatches_variants_agree (db : DB) (uid : jsstring) (me : User) :
  ignoreUndefined = false ->
  resolveById db uid = Some me ->
  ServerJs.getMatches db uid = Validating.getMatches db uid.
Proof.
  intros Hnull Hme.
  rewrite (getMatches_resolved db uid me Hme).
  rewrite (guarded_getMatches_resolved db uid me Hme).
  rewrite (filter_ext (reciprocated db (username me))
             (guardedReciprocated db (username me))
             (fun c => reciprocated_guarded db (username me) c Hnull)).
  reflexivity.
Qed.

(** X10: for a registered requesting user, and the driver sending
    [undefined] as null, the main backend and the guarded variant give
    the same answer to [GET /api/matches/:userId]. *)
Theorem variants_agree_on_matches (db : DB) (uid : jsstring) (me : User) :
  ignoreUndefined = false ->
  resolveById db uid = Some me ->
  ServerJs.getMatches db uid = Validating.getMatches db uid.
Proof. exact (getMatches_variants_agree db uid me). Qed.

(** X11: with a non-blank username and password the two register handlers
    do the same. *)
Theorem variants_agree_on_register (db : DB) (u p : jsstring) :
  trim u <> [] -> trim p <> [] ->
  Validating.register db (Some u) (Some p)
  = ServerJs.register db (Some u) (Some p).
Proof.
  intros Hu Hp. unfold Validating.register, ServerJs.register. simpl.
  destruct (trim u); [contradiction|].
  destruct (trim p); [contradiction|]. reflexivity.
Qed.

Lemma guardedReciprocated_sound (db : DB) (m : jsstring) (c : PopulatedCrush) :
  guardedReciprocated db m c = true -> namedBy db m (p_name c).
Proof.
  unfold guardedReciprocated.
  destruct (User_findOne db (Some (p_name c))) as [B|] eqn:HB;
    [|discriminate].
  destruct (Crush_findOne db (Some (_id B)) (Some m)) as [r|] eqn:Hr;
    [|discriminate].
  intros _. apply User_findOne_some in HB. destruct HB as [HB Hname].
  unfold Crush_findOne in Hr. apply find_some in Hr. simpl in Hr.
  destruct Hr as [Hr Hmatch]. apply andb_true_iff in Hmatch.
  destruct Hmatch as [Hid Hnm].
  apply N.eqb_eq in Hid. apply str_eqb_eq in Hnm.
  exists B. repeat split; auto. exists r. auto.
Qed.

Lemma guardedReciprocated_complete (db : DB) (m : jsstring)
    (c : PopulatedCrush) :
  NoDup (map username (users db)) ->
  namedBy db m (p_name c) -> guardedReciprocated db m c = true.
Proof.
  intros Hnames (B & HB & Hname & r & Hr & Hid & Hnm).
  unfold guardedReciprocated. rewrite <- Hname.
  rewrite (User_findOne_registered db B Hnames HB).
  destruct (Crush_findOne_present db r Hr) as [r' Hr'].
  rewrite Hid, Hnm in Hr'. rewrite Hr'. reflexivity.
Qed.

Lemma guarded_matches_characterised (db : DB) (A : User) (a : jsstring) :
  consistent db ->
  In A (users db) -> castObjectId a = Some (_id A) ->
  exists l,
    Validating.getMatches db a = (json 200 (Matches l), db)
    /\ forall n,
         In n l <-> hasNamed db (_id A) n /\ namedBy db (username A) n.
Proof.
  intros Hc HA Hcast.
  pose proof (resolveById_registered db a A Hc HA Hcast) as Hres.
  destruct Hc as (_ & Hnames & _).
  eexists. split; [apply (guarded_getMatches_resolved db a A Hres)|].
  unfold listByOwner, ServerJs.getCrushes, Crush_find. rewrite Hcast. simpl.
  intros n. rewrite in_map_iff. split.
  - intros (pc & Hn & Hpc). apply filter_In in Hpc. destruct Hpc as [Hpc Hrec].
    unfold populate_userId in Hpc. apply in_map_iff in Hpc.
    destruct Hpc as (c & Hc & Hin). apply filter_In in Hin.
    destruct Hin as [Hin Hown]. apply N.eqb_eq in Hown.
    subst pc. simpl in Hn. subst n. split.
    + exists c. auto.
    + apply (guardedReciprocated_sound db (username A) _ Hrec).
  - intros [(c & Hin & Hown & Hn) Hby].
    exists (mkPopulated (crush_id c) (name c) (User_findOne_id db (userId c))).
    split; [exact Hn|]. apply filter_In. split.
    + unfold populate_userId.
      apply in_map with (f := fun c => mkPopulated (crush_id c) (name c)
                                         (User_findOne_id db (userId c))).
      apply filter_In. split; [exact Hin|]. apply N.eqb_eq. exact Hown.
    + apply guardedReciprocated_complete; [exact Hnames|].
      simpl. rewrite Hn. exact Hby.
Qed.

(** X12: in every consistent state (unique identifiers and usernames), the
    guarded variant answers a registered user with exactly the mutual
    interests: a name is among the matches if and only if the user has
    recorded an interest of that name and a registered user of that
    name has recorded an interest named after the requesting user. *)
Theorem guarded_matches_exactly_mutual (db : DB) (A : User) (a : jsstring) :
  consistent db ->
  In A (users db) -> castObjectId a = Some (_id A) ->
  exists l,
    Validating.getMatches db a = (json 200 (Matches l), db)
    /\ forall n,
         In n l <-> hasNamed db (_id A) n /\ namedBy db (username A) n.
Proof. exact (guarded_matches_characterised db A a). Qed.

Lemma server_matches_characterised (reqs : list Request) (A : User)
    (a : jsstring) :
  let db := serve emptyDB reqs in
  ignoreUndefined = false ->
  In A (users db) -> castObjectId a = Some (_id A) ->
  exists l,
    ServerJs.getMatches db a = (json 200 (Matches l), db)
    /\ forall n,
         In n l <-> hasNamed db (_id A) n /\ namedBy db (username A) n.
Proof.
  intros db Hnull HA Hcast.
  assert (Hc : consistent db)
    by apply serve_consistent, emptyDB_consistent.
  rewrite (getMatches_variants_agree db a A Hnull
             (resolveById_registered db a A Hc HA Hcast)).
  apply (guarded_matches_characterised db A a Hc HA Hcast).
Qed.

(** X13: in every state the main backend can reach, the driver
    sending [undefined] as null, the main backend answers a registered
    user with exactly the mutual interests: a name is among the matches
    if and only if the user has recorded an interest of that name and a
    registered user of that name has recorded an interest named after
    the requesting user. *)
Theorem matches_exactly_mutual (reqs : list Request) (A : User)
    (a : jsstring) :
  let db := serve emptyDB reqs in
  ignoreUndefined = false ->
  In A (users db) -> castObjectId a = Some (_id A) ->
  exists l,
    ServerJs.getMatches db a = (json 200 (Matches l), db)
    /\ forall n,
         In n l <-> hasNamed db (_id A) n /\ namedBy db (username A) n.
Proof. exact (server_matches_characterised reqs A a). Qed.

(** X14: matches are symmetric as results: if the matches of A contain the
    username of a registered user B, the matches of B contain the
    username of A. *)
Theorem matches_symmetric_results (reqs : list Request) (A B : User)
    (a b : jsstring) (la : list jsstring) :
  let db := serve emptyDB reqs in
  ignoreUndefined = false ->
  In A (users db) -> castObjectId a = Some (_id A) ->
  In B (users db) -> castObjectId b = Some (_id B) ->
  fst (ServerJs.getMatches db a) = json 200 (Matches la) ->
  In (username B) la ->
  exists lb,
    ServerJs.getMatches db b = (json 200 (Matches lb), db)
    /\ In (username A) lb.
Proof.
  intros db Hnull HA Ha HB Hb Hla Hin.
  assert (Hc : consistent db)
    by apply serve_consistent, emptyDB_consistent.
  destruct (server_matches_characterised reqs A a Hnull HA Ha) as (la' & Hla' & HAiff).
  fold db in Hla'. rewrite Hla' in Hla. simpl in Hla.
  injection Hla as ->.
  destruct (server_matches_characterised reqs B b Hnull HB Hb) as (lb & Hlb & HBiff).
  exists lb. split; [exact Hlb|]. apply HBiff.
  apply HAiff in Hin. destruct Hin as [HAnamed (B' & HB' & Hname & HBnamed)].
  assert (B' = B) as ->.
  { destruct Hc as (_ & Hnames & _).
    pose proof (User_findOne_registered db B' Hnames HB') as H1.
    pose proof (User_findOne_registered db B Hnames HB) as H2.
    rewrite Hname in H1. congruence. }
  split; [exact HBnamed|]. exists A. auto.
Qed.

End Matched.

(** ** Matches over time *)

Section Lasting.
Context {E : Externals}.

Lemma reciprocated_extends (db db' : DB) (m : jsstring) (c : PopulatedCrush) :
  ignoreUndefined = false -> extends db db' ->
  reciprocated db m c = true -> reciprocated db' m c = true.
Proof.
  intros Hnull [[us Hus] [cs Hcs]]. unfold reciprocated.
  destruct (User_findOne db (Some (p_name c))) as [B|] eqn:HB; simpl.
  - assert (HB' : User_findOne db' (Some (p_name c)) = Some B).
    { unfold User_findOne in *. rewrite Hus. apply find_app_some. exact HB. }
    rewrite HB'. simpl.
    destruct (Crush_findOne db (Some (_id B)) (Some m)) as [r|] eqn:Hr;
      [|discriminate].
    intros _. unfold Crush_findOne in *. rewrite Hcs.
    rewrite (find_app_some _ _ _ cs r Hr). reflexivity.
  - rewrite (Crush_findOne_null db (Some m) Hnull). discriminate.
Qed.

Lemma resolveById_extends (db db' : DB) (a : jsstring) (A : User) :
  extends db db' -> resolveById db a = Some A -> resolveById db' a = Some A.
Proof.
  intros [[us Hus] _]. unfold resolveById.
  destruct (castObjectId a) as [i|]; [|discriminate].
  unfold User_findOne_id. rewrite Hus. apply find_app_some.
Qed.

(** X15: no later request to the main backend removes a match: the matches
    of a registered user before a sequence of requests are a
    subsequence of the matches after it (the driver sending [undefined]
    as null). *)
Theorem later_requests_keep_matches (db : DB) (reqs : list Request)
    (a : jsstring) (A : User) :
  ignoreUndefined = false ->
  resolveById db a = Some A ->
  exists l l',
    fst (ServerJs.getMatches db a) = json 200 (Matches l)
    /\ fst (ServerJs.getMatches (serve db reqs) a) = json 200 (Matches l')
    /\ Subseq l l'.
Proof.
  intros Hnull HA.
  pose proof (serve_extends reqs db) as Hext.
  pose proof (resolveById_extends db (serve db reqs) a A Hext HA) as HA'.
  rewrite (getMatches_resolved db a A HA).
  rewrite (getMatches_resolved (serve db reqs) a A HA').
  do 2 eexists. split; [reflexivity|]. split; [reflexivity|].
  rewrite !reciprocated_names.
  assert (Hlist : exists e,
             map name (listByOwner (serve db reqs) a)
             = map name (listByOwner db a) ++ e).
  { destruct Hext as [_ [cs Hcs]].
    unfold listByOwner, ServerJs.getCrushes, Crush_find.
    destruct (castObjectId a) as [i|]; simpl; [|exists []; reflexivity].
    rewrite Hcs, filter_app, map_app. eexists. reflexivity. }
  destruct Hlist as [e ->].
  apply Subseq_filter_weaken. intros n.
  apply reciprocated_extends; assumption.
Qed.

End Lasting.

(** ** The token middleware and the protected routes *)

Lemma split_space_no_space (s : jsstring) :
  ~ In 32%N s -> split_space s = [s].
Proof.
  induction s as [|c s IH]; intros Hno; [reflexivity|].
  simpl. destruct (N.eqb c 32) eqn:Hc.
  - apply N.eqb_eq in Hc. exfalso. apply Hno. left. exact Hc.
  - rewrite IH; [reflexivity|]. intros H. apply Hno. right. exact H.
Qed.

Lemma split_space_at_space (s t : jsstring) :
  ~ In 32%N s -> split_space (s ++ 32%N :: t) = s :: split_space t.
Proof.
  induction s as [|c s IH]; intros Hno; simpl.
  - reflexivity.
  - destruct (N.eqb c 32) eqn:Hc.
    + apply N.eqb_eq in Hc. exfalso. apply Hno. left. exact Hc.
    + rewrite IH; [reflexivity|]. intros H. apply Hno. right. exact H.
Qed.

Section Tokens.
Context {E : Externals} {V : Verifier}.

(** X16: without an Authorization header, or with one that has no space in
    it, the middleware answers 401 and the route is not run. *)
Theorem no_token_unauthorized (h : field) :
  match h with
  | Some s => ~ In 32%N s
  | None => True
  end ->
  Standalone.authenticateToken h = Rejected 401.
Proof.
  unfold Standalone.authenticateToken.
  destruct h as [[|c s]|]; intros Hno; try reflexivity.
  rewrite (split_space_no_space (c :: s) Hno). reflexivity.
Qed.

Lemma second_word_token (scheme token rest : jsstring) :
  ~ In 32%N scheme -> ~ In 32%N token -> token <> [] ->
  Standalone.authenticateToken (Some (scheme ++ 32%N :: token))
  = match jwt_verify token with
    | Some id => Authorized id
    | None => Rejected 403
    end
  /\ Standalone.authenticateToken
       (Some (scheme ++ 32%N :: token ++ 32%N :: rest))
     = Standalone.authenticateToken (Some (scheme ++ 32%N :: token)).
Proof.
  intros Hscheme Htoken Hne.
  assert (H1 : forall tail,
             (tail = [] \/ exists r, tail = 32%N :: r) ->
             Standalone.authenticateToken (Some (scheme ++ 32%N :: token ++ tail))
             = match jwt_verify token with
               | Some id => Authorized id
               | None => Rejected 403
               end).
  { intros tail Htail. unfold Standalone.authenticateToken.
    assert (Hnth : nth_error (split_space (scheme ++ 32%N :: token ++ tail)) 1
                   = Some token).
    { rewrite (split_space_at_space scheme (token ++ tail) Hscheme).
      destruct Htail as [-> | [r ->]].
      - rewrite app_nil_r, (split_space_no_space token Htoken). reflexivity.
      - rewrite (split_space_at_space token r Htoken). reflexivity. }
    destruct (scheme ++ 32%N :: token ++ tail) as [|c s] eqn:Hs.
    - destruct scheme; discriminate.
    - rewrite Hnth. destruct token; [contradiction|]. reflexivity. }
  pose proof (H1 [] (or_introl eq_refl)) as H0. rewrite app_nil_r in H0.
  split; [exact H0|]. rewrite H0. apply H1. right. eauto.
Qed.

(** X17: the middleware takes the second space-separated word of the header
    as the token, whatever the first word is: "Bearer" is not
    checked.  The token is then accepted or answered 403 by
    [jwt.verify] alone. *)
Theorem token_is_second_word (scheme token rest : jsstring) :
  ~ In 32%N scheme -> ~ In 32%N token -> token <> [] ->
  Standalone.authenticateToken (Some (scheme ++ 32%N :: token))
  = match jwt_verify token with
    | Some id => Authorized id
    | None => Rejected 403
    end
  /\ Standalone.authenticateToken
       (Some (scheme ++ 32%N :: token ++ 32%N :: rest))
     = Standalone.authenticateToken (Some (scheme ++ 32%N :: token)).
Proof. exact (second_word_token scheme token rest). Qed.

Lemma authenticateToken_codes (h : field) (code : N) :
  Standalone.authenticateToken h = Rejected code ->
  code = 401%N \/ code = 403%N.
Proof.
  unfold Standalone.authenticateToken.
  destruct h as [[|c s]|]; cbn [falsy];
    try (intros H; injection H as <-; auto; fail).
  destruct (nth_error (split_space (c :: s)) 1) as [[|d t]|]; cbn [falsy];
    try (intros H; injection H as <-; auto; fail).
  destruct (jwt_verify (d :: t)); intros H;
    [discriminate|injection H as <-; auto].
Qed.

(** X18: a protected route answers a rejected request with the status of
    the middleware alone, 401 or 403, and writes nothing. *)
Theorem rejected_requests_write_nothing (db : DB) (h nm : field)
    (uid : jsstring) (code : N) :
  Standalone.authenticateToken h = Rejected code ->
  Standalone.postCrush db h nm = (StatusOnly code, db)
  /\ Standalone.getCrushes db h uid = (StatusOnly code, db)
  /\ (code = 401%N \/ code = 403%N).
Proof.
  intros Hrej. unfold Standalone.postCrush, Standalone.getCrushes.
  rewrite Hrej. repeat split.
  apply (authenticateToken_codes h code Hrej).
Qed.

(** X19: from login to a recorded crush: when the lookup by the
    trimmed username finds a User and bcrypt accepts the password, the
    login answers 200 with a token, and with that token sent as
    "Bearer <token>" the crush is stored under the identifier of the
    User who logged in, its name trimmed. *)
Theorem login_token_records_own_crush (db : DB) (uname pwd : field)
    (user : User) (n id : jsstring) :
  Standalone.findUser db uname = Some user ->
  compare pwd (password user) = Ok true ->
  ~ In 32%N (jwt_sign (_id user)) -> jwt_sign (_id user) <> [] ->
  jwt_verify (jwt_sign (_id user)) = Some id ->
  castObjectId id = Some (_id user) ->
  trim n <> [] ->
  exists token,
    Standalone.login db uname pwd
    = (json 200 (Session token (_id user)), db)
    /\ Standalone.postCrush db (Some (lit "Bearer" ++ 32%N :: token)) (Some n)
       = (Json (json 201 (CrushDoc (mkCrush (nextId db) (trim n) (_id user)))),
          mkDB (users db)
               (crushes db ++ [mkCrush (nextId db) (trim n) (_id user)])
               (N.succ (nextId db))).
Proof.
  intros Huser Hcmp Hnospace Hne Hverify Hcast Hn.
  exists (jwt_sign (_id user)). split.
  - unfold Standalone.login. rewrite Huser, Hcmp. reflexivity.
  - unfold Standalone.postCrush.
    assert (Hbearer : ~ In 32%N (lit "Bearer")).
    { vm_compute. intros H.
      repeat (destruct H as [H|H]; [discriminate|]). exact H. }
    destruct (second_word_token (lit "Bearer") (jwt_sign (_id user)) []
                Hbearer Hnospace Hne) as [-> _].
    rewrite Hverify.
    assert (Hnm : falsy (Some n) = false).
    { destruct n; [contradiction Hn; reflexivity|reflexivity]. }
    rewrite Hnm. unfold Crush_save. simpl.
    destruct (trim n) as [|c tn]; [contradiction|].
    rewrite Hcast. reflexivity.
Qed.

(** X20: a name of whitespace only passes the [!name] test of the protected
    route and fails the validation of the trimmed name: the answer is
    500 where an empty name is answered 400.  Nothing is written. *)
Theorem blank_crush_name_server_error (db : DB) (h : field) (id n : jsstring) :
  Standalone.authenticateToken h = Authorized id ->
  trim n = [] ->
  Standalone.postCrush db h (Some n)
  = (Json (if falsy (Some n)
           then json 400 (Message "Name is required")
           else json 500 (ServerError ValidationError)), db).
Proof.
  intros Hauth Hblank. unfold Standalone.postCrush. rewrite Hauth.
  destruct n as [|c n]; [reflexivity|].
  cbn [falsy]. unfold Crush_save. cbn [option_map]. rewrite Hblank.
  reflexivity.
Qed.

End Tokens.

(** ** The CORS origin checks *)

Lemma startsWith_spec (s p : jsstring) :
  startsWith s p = true <-> exists b, s = p ++ b.
Proof.
  revert s. induction p as [|x p IH]; intros s.
  - split; [intros _; exists s; reflexivity|].
    intros _. destruct s; reflexivity.
  - destruct s as [|c s]; simpl.
    + split; [discriminate|intros [b Hb]; discriminate].
    + rewrite andb_true_iff, N.eqb_eq, IH. split.
      * intros [-> [b ->]]. exists b. reflexivity.
      * intros [b Hb]. injection Hb as -> ->. eauto.
Qed.

(** [includes] is the substring test. *)
Lemma includes_spec (s sub : jsstring) :
  includes s sub = true <-> exists a b, s = a ++ sub ++ b.
Proof.
  induction s as [|c s IH]; simpl.
  - rewrite orb_false_r.
    change (match sub with [] => true | _ :: _ => false end)
      with (startsWith [] sub).
    rewrite startsWith_spec. split.
    + intros [b Hb]. exists [], b. exact Hb.
    + intros (a & b & Hab). destruct a; [|discriminate]. eauto.
  - rewrite orb_true_iff, IH.
    change (match sub with
            | [] => true
            | p :: prefix' => N.eqb c p && startsWith s prefix'
            end) with (startsWith (c :: s) sub).
    rewrite startsWith_spec. split.
    + intros [[b Hb] | (a & b & ->)].
      * exists [], b. exact Hb.
      * exists (c :: a), b. reflexivity.
    + intros (a & b & Hab). destruct a as [|d a].
      * left. exists b. exact Hab.
      * right. injection Hab as -> ->. eauto.
Qed.

Lemma array_includes_In (l : list jsstring) (x : jsstring) :
  array_includes l x = true <-> In x l.
Proof.
  unfold array_includes. rewrite existsb_exists. split.
  - intros (y & Hy & Heq). apply str_eqb_eq in Heq. subst. exact Hy.
  - intros Hx. exists x. split; [exact Hx|apply str_eqb_refl].
Qed.

Lemma standalone_cors_characterised (origin : field) :
  Standalone.corsOrigin origin = true
  <-> falsy origin = true
      \/ exists o a b,
           origin = Some o
           /\ (o = a ++ lit "localhost" ++ b
               \/ o = a ++ lit "onrender.com" ++ b).
Proof.
  unfold Standalone.corsOrigin.
  destruct origin as [[|c o]|]; cbn [falsy];
    try (split; [left; reflexivity|reflexivity]).
  rewrite !orb_true_iff, array_includes_In, !includes_spec. split.
  - intros [[Hlist | (a & b & Ha)] | (a & b & Ha)]; right.
    + exists (c :: o). simpl in Hlist.
      destruct Hlist as [<- | [<- | [<- | []]]].
      * exists (lit "http://"), (lit ":3000"). split; [reflexivity|].
        left. reflexivity.
      * exists (lit "https://your-frontend."), []. split; [reflexivity|].
        right. reflexivity.
      * exists (lit "https://your-backend."), []. split; [reflexivity|].
        right. reflexivity.
    + exists (c :: o), a, b. auto.
    + exists (c :: o), a, b. auto.
  - intros [Hf | (o' & a & b & Ho & [Ha | Ha])]; [discriminate| |];
      injection Ho as <-.
    + left. right. eauto.
    + right. eauto.
Qed.

(** X21: the list of origins of the self-contained variant adds nothing to
    its two substring tests: an origin is let through exactly when it
    is absent or empty, or has "localhost" or "onrender.com" anywhere
    in it. *)
Theorem cors_list_is_redundant (origin : field) :
  Standalone.corsOrigin origin = true
  <-> falsy origin = true
      \/ exists o a b,
           origin = Some o
           /\ (o = a ++ lit "localhost" ++ b
               \/ o = a ++ lit "onrender.com" ++ b).
Proof. exact (standalone_cors_characterised origin). Qed.

(** X22: every origin the validating variant lets through, the
    self-contained variant lets through too. *)
Theorem cors_validating_stricter (origin : field) :
  Validating.corsOrigin origin = true -> Standalone.corsOrigin origin = true.
Proof.
  unfold Validating.corsOrigin. intros H. apply standalone_cors_characterised.
  destruct origin as [[|c o]|]; cbn [falsy] in *; auto.
  right.
  change (array_includes Validating.allowedOrigins (c :: o) = true) in H.
  apply array_includes_In in H.
  exists (c :: o). destruct H as [<- | [<- | []]].
  - exists (lit "http://"), (lit ":3000"). split; [reflexivity|].
    left. reflexivity.
  - exists (lit "https://your-render-frontend-url."), [].
    split; [reflexivity|]. right. reflexivity.
Qed.

(** ** An unknown requester, and what the Crush collection holds *)

Section Unknown.
Context {E : Externals}.

Lemma guarded_matchLoop_unknown (db : DB) (uid : jsstring) :
  User_findById db uid = Ok None ->
  forall cs acc,
    Validating.matchLoop db uid (populate_userId db cs) acc
    = if existsb (fun c => match User_findOne db (Some (name c)) with
                           | Some _ => true
                           | None => false
                           end) cs
      then Throw TypeError
      else Ok acc.
Proof.
  intros Hme. induction cs as [|c cs IH]; intros acc; [reflexivity|].
  change (populate_userId db (c :: cs))
    with (mkPopulated (crush_id c) (name c) (User_findOne_id db (userId c))
            :: populate_userId db cs).
  cbn [Validating.matchLoop existsb p_name].
  destruct (User_findOne db (Some (name c))); cbn [orb].
  - rewrite Hme. reflexivity.
  - apply IH.
Qed.

(** X26: when the route parameter is a well-formed identifier of nobody,
    the guarded variant fails only if one of the crushes recorded under
    it names a registered user; otherwise it answers 200 with no
    matches, where the main backend fails at the first crush. *)
Theorem guarded_unknown_requester (db : DB) (uid : jsstring) (i : ObjectId) :
  castObjectId uid = Some i -> resolveById db uid = None ->
  fst (Validating.getMatches db uid)
  = if existsb (fun c => match User_findOne db (Some (name c)) with
                         | Some _ => true
                         | None => false
                         end) (listByOwner db uid)
    then json 500 (ErrorMessage TypeError)
    else json 200 (Matches []).
Proof.
  intros Hcast Hnone. unfold resolveById in Hnone. rewrite Hcast in Hnone.
  assert (Hme : User_findById db uid = Ok None).
  { unfold User_findById. rewrite Hcast, Hnone. reflexivity. }
  unfold Validating.getMatches, listByOwner, ServerJs.getCrushes, Crush_find.
  rewrite Hcast. cbn [bind fst].
  rewrite (guarded_matchLoop_unknown db uid Hme).
  destruct (existsb _ _); reflexivity.
Qed.

Lemma serve_crushes_forall (P : Crush -> Prop) :
  (forall k n i, n <> [] -> P (mkCrush k n i)) ->
  forall reqs db,
    (forall c, In c (crushes db) -> P c) ->
    forall c, In c (crushes (serve db reqs)) -> P c.
Proof.
  intros Hnew. induction reqs as [|r reqs IH]; intros db Hdb c Hc;
    simpl in Hc; [auto|].
  apply (IH (snd (handle db r))); [|exact Hc].
  clear c Hc. intros c Hc.
  destruct r as [u p|u p|n u|u| |u]; simpl in Hc.
  - destruct (register_writes db u p)
      as [Hsame | (u' & p' & _ & _ & _ & _ & _ & Hreg)].
    + rewrite Hsame in Hc. auto.
    + rewrite Hreg in Hc. auto.
  - rewrite login_reads in Hc. auto.
  - destruct (postCrush_writes db n u)
      as [[err Hsame] | (n' & u' & i & _ & _ & Hn & _ & Hpost)].
    + rewrite Hsame in Hc. auto.
    + rewrite Hpost in Hc. simpl in Hc.
      apply in_app_or in Hc. destruct Hc as [Hc|[<-|[]]]; auto.
  - rewrite getCrushes_reads in Hc. auto.
  - auto.
  - rewrite getMatches_reads in Hc. auto.
Qed.

(** X27: after any sequence of requests to the main backend, every stored
    crush has a non-empty name. *)
Theorem stored_crush_names_nonempty (reqs : list Request) (c : Crush) :
  In c (crushes (serve emptyDB reqs)) -> name c <> [].
Proof.
  apply (serve_crushes_forall (fun c => name c <> [])).
  - intros k n i Hn. exact Hn.
  - intros y [].
Qed.

End Unknown.

(** ** Registration in the self-contained variant *)

Section StandaloneRegister.
Context {E : Externals}.

Lemma standalone_register_outcome (db : DB) (uname pwd : field) :
  (status (fst (Standalone.register db uname pwd)) <> 201%N
   /\ snd (Standalone.register db uname pwd) = db)
  \/ exists u p,
       uname = Some u /\ pwd = Some p
       /\ Standalone.findUser db (Some u) = None
       /\ Standalone.register db uname pwd
          = (json 201 (Message "User created successfully"),
             mkDB (users db
                     ++ [mkUser (nextId db) (trim u)
                           (bcrypt_hash p (genSalt (nextId db)))])
                  (crushes db) (N.succ (nextId db))).
Proof.
  unfold Standalone.register.
  destruct uname as [[|c u]|]; cbn [falsy orb];
    try (left; split; [intros H; cbn in H; discriminate H|reflexivity]).
  destruct pwd as [[|d p]|]; cbn [falsy orb];
    try (left; split; [intros H; cbn in H; discriminate H|reflexivity]).
  destruct (Standalone.findUser db _) as [found|] eqn:Hfind.
  - left. split; [intros H; cbn in H; discriminate H|reflexivity].
  - unfold Standalone.saveUser. cbn [bind].
    destruct (trim (c :: u)) as [|c' tu] eqn:Htu.
    + left. split; [intros H; cbn in H; discriminate H|reflexivity].
    + destruct (existsb (fun x => str_eqb (username x) (c' :: tu)) (users db)).
      * left. split; [intros H; cbn in H; discriminate H|reflexivity].
      * right. exists (c :: u), (d :: p). rewrite Htu. auto.
Qed.

(** X4: the register handler of the self-contained variant writes
    only when it answers 201, and then it has appended exactly one
    User: its username is the trimmed username and its password field
    is the [bcrypt.hash], with the generated salt, of the password as
    sent (this variant does not trim the password). *)
Theorem standalone_register_stores_hash (db : DB) (uname pwd : field) :
  (status (fst (Standalone.register db uname pwd)) <> 201%N ->
   snd (Standalone.register db uname pwd) = db)
  /\ (status (fst (Standalone.register db uname pwd)) = 201%N ->
      exists u p,
        uname = Some u /\ pwd = Some p
        /\ snd (Standalone.register db uname pwd)
           = mkDB (users db
                     ++ [mkUser (nextId db) (trim u)
                           (bcrypt_hash p (genSalt (nextId db)))])
                  (crushes db) (N.succ (nextId db))).
Proof.
  destruct (standalone_register_outcome db uname pwd)
    as [[Hstatus Hsame] | (u & p & Hu & Hp & _ & Hreg)].
  - split; [intros _; exact Hsame|]. intros H201. contradiction.
  - rewrite Hreg. simpl. split; [intros H; contradiction|].
    intros _. exists u, p. auto.
Qed.

(** X28: in the self-contained variant, a registration answered 201
    followed by a login with the username and password exactly as they
    were sent to register, surrounding whitespace included, opens a
    session for the new User, as long as bcrypt accepts the password
    against its own hash. *)
Theorem standalone_register_then_login (db : DB) (u p : jsstring) :
  status (fst (Standalone.register db (Some u) (Some p))) = 201%N ->
  bcrypt_compare p (bcrypt_hash p (genSalt (nextId db))) = true ->
  fst (Standalone.login (snd (Standalone.register db (Some u) (Some p)))
         (Some u) (Some p))
  = json 200 (Session (jwt_sign (nextId db)) (nextId db)).
Proof.
  intros H201 Hbcrypt.
  destruct (standalone_register_outcome db (Some u) (Some p))
    as [[Hstatus _] | (u' & p' & Hu & Hp & Hfind & Hreg)];
    [contradiction|].
  injection Hu as <-. injection Hp as <-.
  rewrite Hreg. simpl.
  unfold Standalone.login, Standalone.findUser, User_findOne in *.
  simpl in *. rewrite (find_app_none _ _ _ _ Hfind).
  simpl. rewrite str_eqb_refl. simpl. rewrite Hbcrypt. reflexivity.
Qed.

End StandaloneRegister.

(** ** Instances of the further properties *)

Lemma stored_usernames_trimmed_witness :
  username alice <> [] /\ trim (username alice) = username alice.
Proof.
  apply (@stored_usernames_trimmed libs mutualRequests alice).
  vm_compute. left. reflexivity.
Defined.

Lemma register_then_login_witness :
  fst (@ServerJs.login libs
         (snd (@ServerJs.register libs mutualDB
                 (Some (lit " dave ")) (Some (lit " pw4 "))))
         (Some (lit "dave")) (Some (lit "pw4")))
  = json 200 (Session (lit "jwt") 5%N).
Proof.
  apply (@register_then_login libs mutualDB (lit " dave ") (lit " pw4 ")).
  - vm_compute. discriminate.
  - vm_compute. discriminate.
  - vm_compute. intros x [<-|[<-|[]]]; discriminate.
  - reflexivity.
Defined.

Lemma padded_password_witness :
  fst (@ServerJs.login libs
         (snd (@ServerJs.register libs mutualDB
                 (Some (lit " dave ")) (Some (lit " pw4 "))))
         (Some (lit "dave")) (Some (lit " pw4 ")))
  = json 400 (Message "Invalid password").
Proof.
  apply (@padded_password_refused libs mutualDB (lit " dave ") (lit " pw4 ")).
  - vm_compute. discriminate.
  - vm_compute. discriminate.
  - vm_compute. intros x [<-|[<-|[]]]; discriminate.
  - reflexivity.
Defined.

Lemma postCrush_unanswered_witness :
  @ServerJs.postCrush libs mutualDB (Some (lit "carol")) (Some (lit "me"))
  = (Unhandled ValidationError, mutualDB).
Proof.
  apply (@postCrush_unanswered libs mutualDB (Some (lit "carol"))
           (Some (lit "me"))).
  right. reflexivity.
Defined.

Lemma postCrush_leaves_other_lists_witness :
  @listByOwner libs
    (snd (@ServerJs.postCrush libs mutualDB (Some (lit "carol")) (Some oid0)))
    oid1
  = @listByOwner libs mutualDB oid1.
Proof.
  apply (@postCrush_leaves_other_lists libs mutualDB (Some (lit "carol"))
           (Some oid0) oid1).
  intros u Hu. injection Hu as <-. vm_compute. discriminate.
Defined.

Lemma validating_postCrush_answers_witness :
  snd (@Validating.postCrush libs mutualDB None (Some oid0))
  = snd (@ServerJs.postCrush libs mutualDB None (Some oid0))
  /\ fst (@Validating.postCrush libs mutualDB None (Some oid0))
     = json 400 (Message "Name and userId are required").
Proof.
  exact (@validating_postCrush_answers libs mutualDB None (Some oid0) eq_refl).
Defined.

Lemma variants_agree_on_matches_witness :
  @ServerJs.getMatches libs mutualDB oid0
  = @Validating.getMatches libs mutualDB oid0.
Proof.
  apply (@variants_agree_on_matches libs mutualDB oid0 alice);
    reflexivity.
Defined.

Lemma variants_agree_on_register_witness :
  @Validating.register libs mutualDB (Some (lit " dave ")) (Some (lit "pw4"))
  = @ServerJs.register libs mutualDB (Some (lit " dave ")) (Some (lit "pw4")).
Proof.
  apply (@variants_agree_on_register libs mutualDB (lit " dave ") (lit "pw4"));
    vm_compute; discriminate.
Defined.

Lemma guarded_matches_exactly_mutual_witness :
  exists l,
    @Validating.getMatches libs mutualDB oid0 = (json 200 (Matches l), mutualDB)
    /\ forall n,
         In n l
         <-> hasNamed mutualDB 0%N n /\ namedBy mutualDB (lit "alice") n.
Proof.
  apply (@guarded_matches_exactly_mutual libs mutualDB alice oid0).
  - apply (@serve_consistent libs), emptyDB_consistent.
  - vm_compute. left. reflexivity.
  - reflexivity.
Defined.

Lemma matches_exactly_mutual_witness :
  exists l,
    @ServerJs.getMatches libs mutualDB oid0 = (json 200 (Matches l), mutualDB)
    /\ forall n,
         In n l
         <-> hasNamed mutualDB 0%N n /\ namedBy mutualDB (lit "alice") n.
Proof.
  apply (@matches_exactly_mutual libs mutualRequests alice oid0).
  - reflexivity.
  - vm_compute. left. reflexivity.
  - reflexivity.
Defined.

Lemma matches_symmetric_results_witness :
  exists lb,
    @ServerJs.getMatches libs mutualDB oid1 = (json 200 (Matches lb), mutualDB)
    /\ In (lit "alice") lb.
Proof.
  apply (@matches_symmetric_results libs mutualRequests alice bob oid0 oid1
           [lit "bob"; lit "bob"]).
  - reflexivity.
  - vm_compute. left. reflexivity.
  - reflexivity.
  - vm_compute. right. left. reflexivity.
  - reflexivity.
  - vm_compute. reflexivity.
  - left. reflexivity.
Defined.

Lemma later_requests_keep_matches_witness :
  exists l l',
    fst (@ServerJs.getMatches libs mutualDB oid0) = json 200 (Matches l)
    /\ fst (@ServerJs.getMatches libs (@serve libs mutualDB ghostRequests) oid0)
       = json 200 (Matches l')
    /\ Subseq l l'.
Proof.
  apply (@later_requests_keep_matches libs mutualDB ghostRequests oid0 alice);
    reflexivity.
Defined.

Lemma no_token_unauthorized_witness :
  @Standalone.authenticateToken testVerifier (Some (lit "Bearer"))
  = Rejected 401.
Proof.
  apply (@no_token_unauthorized testVerifier (Some (lit "Bearer"))).
  vm_compute. intros H.
  repeat (destruct H as [H|H]; [discriminate|]). exact H.
Defined.

Lemma token_is_second_word_witness :
  @Standalone.authenticateToken testVerifier (Some (lit "Basic jwt"))
  = Authorized oid0
  /\ @Standalone.authenticateToken testVerifier (Some (lit "Basic jwt x"))
     = @Standalone.authenticateToken testVerifier (Some (lit "Basic jwt")).
Proof.
  apply (@token_is_second_word testVerifier (lit "Basic") (lit "jwt") (lit "x")).
  - vm_compute. intros H.
    repeat (destruct H as [H|H]; [discriminate|]). exact H.
  - vm_compute. intros H.
    repeat (destruct H as [H|H]; [discriminate|]). exact H.
  - discriminate.
Defined.

Lemma rejected_requests_witness :
  @Standalone.postCrush libs testVerifier mutualDB (Some (lit "Bearer nope"))
    (Some (lit "carol"))
  = (StatusOnly 403, mutualDB)
  /\ @Standalone.getCrushes libs testVerifier mutualDB
       (Some (lit "Bearer nope")) oid0
     = (StatusOnly 403, mutualDB)
  /\ (403 = 401 \/ 403 = 403)%N.
Proof.
  apply (@rejected_requests_write_nothing libs testVerifier mutualDB
           (Some (lit "Bearer nope")) (Some (lit "carol")) oid0 403%N).
  reflexivity.
Defined.

Lemma login_token_witness :
  exists token,
    @Standalone.login libs mutualDB (Some (lit " alice ")) (Some (lit "pw1"))
    = (json 200 (Session token 0%N), mutualDB)
    /\ @Standalone.postCrush libs testVerifier mutualDB
         (Some (lit "Bearer" ++ 32%N :: token)) (Some (lit " carol "))
       = (Json (json 201 (CrushDoc (mkCrush 5%N (lit "carol") 0%N))),
          mkDB (users mutualDB)
               (crushes mutualDB ++ [mkCrush 5%N (lit "carol") 0%N]) 6%N).
Proof.
  apply (@login_token_records_own_crush libs testVerifier mutualDB
           (Some (lit " alice ")) (Some (lit "pw1")) alice (lit " carol ")
           oid0).
  - reflexivity.
  - reflexivity.
  - vm_compute. intros H.
    repeat (destruct H as [H|H]; [discriminate|]). exact H.
  - discriminate.
  - reflexivity.
  - reflexivity.
  - vm_compute. discriminate.
Defined.

Lemma blank_crush_name_witness :
  @Standalone.postCrush libs testVerifier mutualDB (Some (lit "Bearer jwt"))
    (Some (lit "  "))
  = (Json (json 500 (ServerError ValidationError)), mutualDB).
Proof.
  apply (@blank_crush_name_server_error libs testVerifier mutualDB
           (Some (lit "Bearer jwt")) oid0 (lit "  ")); reflexivity.
Defined.

Lemma cors_validating_stricter_witness :
  Standalone.corsOrigin (Some (lit "http://localhost:3000")) = true.
Proof.
  apply (cors_validating_stricter (Some (lit "http://localhost:3000"))).
  reflexivity.
Defined.

Lemma variants_login_failures_witness :
  fst (@Standalone.login libs mutualDB (Some (lit "zed")) (Some (lit "nope")))
  = fst (@Standalone.login libs mutualDB (Some (lit " alice "))
           (Some (lit "nope")))
  /\ fst (@Validating.login libs mutualDB (Some (lit "zed"))
            (Some (lit "nope")))
     = fst (@Validating.login libs mutualDB (Some (lit "alice"))
              (Some (lit "nope"))).
Proof.
  split.
  - apply (proj1 (@variants_login_failures_alike libs) mutualDB
             (Some (lit "zed")) (Some (lit "nope")) (Some (lit " alice "))
             (Some (lit "nope")) alice); reflexivity.
  - apply (proj2 (@variants_login_failures_alike libs) mutualDB
             (Some (lit "zed")) (Some (lit "nope")) (Some (lit "alice"))
             (Some (lit "nope")) alice); reflexivity.
Defined.

Lemma validating_register_blank_witness :
  @Validating.register libs mutualDB (Some (lit "dave")) (Some (lit "   "))
  = (json 400 (Message "Username and password are required"), mutualDB).
Proof.
  apply (@validating_register_blank libs mutualDB (lit "dave") (lit "   ")).
  right. reflexivity.
Defined.

Lemma guarded_unregistered_name_witness :
  fst (@Validating.getMatches droppingLibs ghostDB oid0) = json 200 (Matches [])
  /\ ~ In (lit "ghost") [].
Proof.
  split; [reflexivity|].
  apply (@guarded_unregistered_name_never_matched droppingLibs ghostDB oid0
           (lit "ghost") []).
  - vm_compute. intros u [<-|[<-|[]]]; discriminate.
  - reflexivity.
Defined.

Lemma guarded_unknown_requester_witness :
  fst (@Validating.getMatches libs strandedDB oid7) = json 200 (Matches []).
Proof.
  exact (@guarded_unknown_requester libs strandedDB oid7 7%N eq_refl eq_refl).
Defined.

Lemma stored_crush_names_witness :
  name (mkCrush 2%N (lit "bob") 0%N) <> [].
Proof.
  apply (@stored_crush_names_nonempty libs mutualRequests
           (mkCrush 2%N (lit "bob") 0%N)).
  vm_compute. left. reflexivity.
Defined.

Lemma standalone_register_stores_hash_witness :
  exists u p,
    Some (lit " dave ") = Some u /\ Some (lit " pw4 ") = Some p
    /\ snd (@Standalone.register libs mutualDB (Some (lit " dave "))
              (Some (lit " pw4 ")))
       = mkDB (users mutualDB
                 ++ [mkUser 5%N (trim u) (testSalt ++ p)])
              (crushes mutualDB) 6%N.
Proof.
  apply (proj2 (@standalone_register_stores_hash libs mutualDB
                  (Some (lit " dave ")) (Some (lit " pw4 ")))).
  reflexivity.
Defined.

Lemma standalone_register_then_login_witness :
  fst (@Standalone.login libs
         (snd (@Standalone.register libs mutualDB (Some (lit " dave "))
                 (Some (lit " pw4 "))))
         (Some (lit " dave ")) (Some (lit " pw4 ")))
  = json 200 (Session (lit "jwt") 5%N).
Proof.
  apply (@standalone_register_then_login libs mutualDB (lit " dave ")
           (lit " pw4 ")); reflexivity.
Defined.
